(** * Pandora Box: the submission lifecycle of [core/views.py]

    A shallow embedding of the Django views that create, edit, delete and
    review submissions ([core/views.py]), of the model method
    [Submission.can_be_edited_by] ([core/models.py]) and of the helpers
    [log_activity], [create_notification] and [role_required]
    ([core/utils.py]).

    Modelling choices.
    - The database is a record of tables.  Tables addressed by primary key
      (users, MACs, submissions) are finite maps; the activity log and the
      notifications are lists in insertion order, each row carrying its
      foreign keys.
    - A view is a state transformer on the world (database, flash messages,
      clock).  [timezone.now()] reads the next value of a time source.
    - Foreign keys hold primary keys.  [on_delete] rules of [models.py] are
      applied by [Submission_delete].
    - Rows are stored as the view built them: column constraints of the
      storage backend (lengths, NOT NULL) are outside the model, as are
      templates, file storage and the [Comment] table.
    - A request names the user of its session; how the session was
      authenticated is Django's business.  An attribute access that Python
      would answer with an exception (a dangling foreign key, the
      anonymous user inside a view) is the response [Http500]. *)

From stdpp Require Import gmap strings list fin_maps.

(** ** Enumerations ([ROLE_CHOICES], [STATUS_CHOICES], [ACTION_CHOICES]) *)

Inductive Role := MAC_OFFICER | MICAT_REVIEWER | ADMIN.

Inductive Status := PENDING | UNDER_REVIEW | APPROVED | DENIED | RETURNED.

Inductive LogAction :=
| SUBMISSION_CREATED | SUBMISSION_UPDATED | SUBMISSION_REVIEWED
| SUBMISSION_APPROVED | SUBMISSION_DENIED | SUBMISSION_RETURNED
| SUBMISSION_PUBLISHED | COMMENT_ADDED | USER_LOGIN | USER_CREATED
| USER_UPDATED | MAC_CREATED | MAC_UPDATED.

Global Instance Role_eq_dec : EqDecision Role.
Proof. solve_decision. Defined.

Global Instance Status_eq_dec : EqDecision Status.
Proof. solve_decision. Defined.

Global Instance LogAction_eq_dec : EqDecision LogAction.
Proof. solve_decision. Defined.

(** ** Models ([core/models.py]) *)

Module User.
Record t := mk {
    username : string;
    role : Role;
    mac : option nat;          (* ForeignKey('MAC', SET_NULL, null=True) *)
    is_active : bool
  }.
End User.

Module MAC.
Record t := mk {
    name : string;
    acronym : string;
    is_active : bool
  }.
End MAC.

Module Submission.
Record t := mk {
    title : string;
    content_type : option string;
    description : string;
    tags : string;
    file : string;
    mac : nat;                       (* ForeignKey(MAC, CASCADE) *)
    submitted_by : option nat;       (* ForeignKey(User, SET_NULL) *)
    reviewed_by : option nat;        (* ForeignKey(User, SET_NULL) *)
    status : Status;
    is_confidential : bool;
    is_published : bool;
    priority : string;
    reviewer_comments : string;
    denial_reason : string;
    submitted_at : nat;              (* auto_now_add *)
    reviewed_at : option nat;
    approved_at : option nat;
    published_at : option nat;
    updated_at : nat                 (* auto_now *)
  }.

Definition set_title v s := mk v (content_type s) (description s) (tags s) (file s) (mac s) (submitted_by s) (reviewed_by s) (status s) (is_confidential s) (is_published s) (priority s) (reviewer_comments s) (denial_reason s) (submitted_at s) (reviewed_at s) (approved_at s) (published_at s) (updated_at s).
Definition set_content_type v s := mk (title s) v (description s) (tags s) (file s) (mac s) (submitted_by s) (reviewed_by s) (status s) (is_confidential s) (is_published s) (priority s) (reviewer_comments s) (denial_reason s) (submitted_at s) (reviewed_at s) (approved_at s) (published_at s) (updated_at s).
Definition set_description v s := mk (title s) (content_type s) v (tags s) (file s) (mac s) (submitted_by s) (reviewed_by s) (status s) (is_confidential s) (is_published s) (priority s) (reviewer_comments s) (denial_reason s) (submitted_at s) (reviewed_at s) (approved_at s) (published_at s) (updated_at s).
Definition set_tags v s := mk (title s) (content_type s) (description s) v (file s) (mac s) (submitted_by s) (reviewed_by s) (status s) (is_confidential s) (is_published s) (priority s) (reviewer_comments s) (denial_reason s) (submitted_at s) (reviewed_at s) (approved_at s) (published_at s) (updated_at s).
Definition set_file v s := mk (title s) (content_type s) (description s) (tags s) v (mac s) (submitted_by s) (reviewed_by s) (status s) (is_confidential s) (is_published s) (priority s) (reviewer_comments s) (denial_reason s) (submitted_at s) (reviewed_at s) (approved_at s) (published_at s) (updated_at s).
Definition set_reviewed_by v s := mk (title s) (content_type s) (description s) (tags s) (file s) (mac s) (submitted_by s) v (status s) (is_confidential s) (is_published s) (priority s) (reviewer_comments s) (denial_reason s) (submitted_at s) (reviewed_at s) (approved_at s) (published_at s) (updated_at s).
Definition set_status v s := mk (title s) (content_type s) (description s) (tags s) (file s) (mac s) (submitted_by s) (reviewed_by s) v (is_confidential s) (is_published s) (priority s) (reviewer_comments s) (denial_reason s) (submitted_at s) (reviewed_at s) (approved_at s) (published_at s) (updated_at s).
Definition set_is_confidential v s := mk (title s) (content_type s) (description s) (tags s) (file s) (mac s) (submitted_by s) (reviewed_by s) (status s) v (is_published s) (priority s) (reviewer_comments s) (denial_reason s) (submitted_at s) (reviewed_at s) (approved_at s) (published_at s) (updated_at s).
Definition set_is_published v s := mk (title s) (content_type s) (description s) (tags s) (file s) (mac s) (submitted_by s) (reviewed_by s) (status s) (is_confidential s) v (priority s) (reviewer_comments s) (denial_reason s) (submitted_at s) (reviewed_at s) (approved_at s) (published_at s) (updated_at s).
Definition set_priority v s := mk (title s) (content_type s) (description s) (tags s) (file s) (mac s) (submitted_by s) (reviewed_by s) (status s) (is_confidential s) (is_published s) v (reviewer_comments s) (denial_reason s) (submitted_at s) (reviewed_at s) (approved_at s) (published_at s) (updated_at s).
Definition set_reviewer_comments v s := mk (title s) (content_type s) (description s) (tags s) (file s) (mac s) (submitted_by s) (reviewed_by s) (status s) (is_confidential s) (is_published s) (priority s) v (denial_reason s) (submitted_at s) (reviewed_at s) (approved_at s) (published_at s) (updated_at s).
Definition set_denial_reason v s := mk (title s) (content_type s) (description s) (tags s) (file s) (mac s) (submitted_by s) (reviewed_by s) (status s) (is_confidential s) (is_published s) (priority s) (reviewer_comments s) v (submitted_at s) (reviewed_at s) (approved_at s) (published_at s) (updated_at s).
Definition set_reviewed_at v s := mk (title s) (content_type s) (description s) (tags s) (file s) (mac s) (submitted_by s) (reviewed_by s) (status s) (is_confidential s) (is_published s) (priority s) (reviewer_comments s) (denial_reason s) (submitted_at s) v (approved_at s) (published_at s) (updated_at s).
Definition set_approved_at v s := mk (title s) (content_type s) (description s) (tags s) (file s) (mac s) (submitted_by s) (reviewed_by s) (status s) (is_confidential s) (is_published s) (priority s) (reviewer_comments s) (denial_reason s) (submitted_at s) (reviewed_at s) v (published_at s) (updated_at s).
Definition set_published_at v s := mk (title s) (content_type s) (description s) (tags s) (file s) (mac s) (submitted_by s) (reviewed_by s) (status s) (is_confidential s) (is_published s) (priority s) (reviewer_comments s) (denial_reason s) (submitted_at s) (reviewed_at s) (approved_at s) v (updated_at s).
Definition set_updated_at v s := mk (title s) (content_type s) (description s) (tags s) (file s) (mac s) (submitted_by s) (reviewed_by s) (status s) (is_confidential s) (is_published s) (priority s) (reviewer_comments s) (denial_reason s) (submitted_at s) (reviewed_at s) (approved_at s) (published_at s) v.
End Submission.

Module ActivityLog.
Record t := mk {
    user : option nat;               (* ForeignKey(User, SET_NULL) *)
    action : LogAction;
    submission : option nat;         (* ForeignKey(Submission, CASCADE, null=True) *)
    description : string;
    ip_address : option string;
    created_at : nat
  }.
End ActivityLog.

Module Notification.
Record t := mk {
    user : nat;                      (* ForeignKey(User, CASCADE) *)
    title : string;
    message : string;
    submission : option nat;         (* ForeignKey(Submission, CASCADE, null=True) *)
    is_read : bool;
    created_at : nat
  }.
End Notification.

(** ** The world a request runs in *)

Inductive Level := level_success | level_info | level_warning | level_error.

Record World := mkWorld {
  users : gmap nat User.t;
  macs : gmap nat MAC.t;
  submissions : gmap nat Submission.t;
  submission_seq : nat;                      (* next primary key *)
  activity_logs : list ActivityLog.t;
  notifications : list Notification.t;
  flash : list (Level * string);             (* django.contrib.messages *)
  time_source : nat → nat;                   (* successive clock readings *)
  time_reads : nat
}.

Definition set_submissions v w := mkWorld (users w) (macs w) v (submission_seq w) (activity_logs w) (notifications w) (flash w) (time_source w) (time_reads w).
Definition set_submission_seq v w := mkWorld (users w) (macs w) (submissions w) v (activity_logs w) (notifications w) (flash w) (time_source w) (time_reads w).
Definition set_activity_logs v w := mkWorld (users w) (macs w) (submissions w) (submission_seq w) v (notifications w) (flash w) (time_source w) (time_reads w).
Definition set_notifications v w := mkWorld (users w) (macs w) (submissions w) (submission_seq w) (activity_logs w) v (flash w) (time_source w) (time_reads w).
Definition set_flash v w := mkWorld (users w) (macs w) (submissions w) (submission_seq w) (activity_logs w) (notifications w) v (time_source w) (time_reads w).
Definition set_time_reads v w := mkWorld (users w) (macs w) (submissions w) (submission_seq w) (activity_logs w) (notifications w) (flash w) (time_source w) v.

(** ** Views as state transformers *)

Definition View (A : Type) : Type := World → A * World.

Global Instance View_ret : MRet View := λ A a w, (a, w).

Global Instance View_bind : MBind View :=
  λ A B f m w, let '(a, w') := m w in f a w'.

Definition get : View World := λ w, (w, w).

Definition modify (f : World → World) : View unit := λ w, (tt, f w).

(** [timezone.now()] *)
Definition timezone_now : View nat :=
  λ w, (time_source w (time_reads w), set_time_reads (S (time_reads w)) w).

(** [messages.success/info/warning/error(request, text)] *)
Definition messages_add (l : Level) (text : string) : View unit :=
  modify (λ w, set_flash (flash w ++ [(l, text)]) w).

(** ** Requests and responses *)

Inductive Method := GET | POST.

Global Instance Method_eq_dec : EqDecision Method.
Proof. solve_decision. Defined.

Record HttpRequest := mkRequest {
  session_user : option nat;       (* primary key of the logged-in user *)
  method : Method;
  POST_data : gmap string string;  (* request.POST *)
  FILES : gmap string string;      (* request.FILES: field name to file name *)
  META : gmap string string
}.

Inductive HttpResponse :=
| redirect (to : string) (pk : option nat)
| render (template : string)
| Http404
| Http500.

(** Python truthiness of a string that may be [None] *)
Definition truthy (o : option string) : bool :=
  match o with
  | Some s => negb (bool_decide (s = ""))
  | None => false
  end.

(** [x == 'on'] *)
Definition is_on (o : option string) : bool := bool_decide (o = Some "on").

(** [request.user]: the row of the session's user, [None] for AnonymousUser *)
Definition request_user (request : HttpRequest) (w : World) : option (nat * User.t) :=
  pk ← session_user request; u ← users w !! pk; Some (pk, u).

Definition is_mac_officer (u : User.t) : bool := bool_decide (User.role u = MAC_OFFICER).
Definition is_micat_reviewer (u : User.t) : bool := bool_decide (User.role u = MICAT_REVIEWER).
Definition is_admin (u : User.t) : bool := bool_decide (User.role u = ADMIN).

(** ** Helpers ([core/utils.py]) *)

(** [s.split(',')[0]] *)
Fixpoint before_comma (s : string) : string :=
  match s with
  | EmptyString => EmptyString
  | String c r => if Ascii.eqb c (Ascii.ascii_of_nat 44) then EmptyString else String c (before_comma r)
  end.

Definition client_ip (request : HttpRequest) : option string :=
  let x_forwarded_for := META request !! "HTTP_X_FORWARDED_FOR" in
  if truthy x_forwarded_for then before_comma <$> x_forwarded_for
  else META request !! "REMOTE_ADDR".

(** [ActivityLog.objects.create(...)]: the only write to the log table
    that the helpers and views make explicitly. *)
Definition log_activity (user : option nat) (action : LogAction)
    (submission : option nat) (description : string)
    (request : option HttpRequest) : View unit :=
  let ip_address := request ≫= client_ip in
  created_at ← timezone_now;
  modify (λ w, set_activity_logs
    (activity_logs w ++
       [ActivityLog.mk user action submission description ip_address created_at]) w).

(** [Notification.objects.create(...)] *)
Definition create_notification (user : nat) (title message : string)
    (submission : option nat) : View unit :=
  created_at ← timezone_now;
  modify (λ w, set_notifications
    (notifications w ++
       [Notification.mk user title message submission false created_at]) w).

(** [@login_required]: anonymous requests are sent to the login page. *)
Definition login_required (view : HttpRequest → View HttpResponse)
    (request : HttpRequest) : View HttpResponse :=
  w ← get;
  match request_user request w with
  | Some _ => view request
  | None => mret (redirect "login" None)
  end.

(** [role_required(roles...)]: the wrapped view runs only for an
    authenticated user whose role is one of [roles]. *)
Definition role_required (roles : list Role)
    (view_func : HttpRequest → View HttpResponse)
    (request : HttpRequest) : View HttpResponse :=
  w ← get;
  match request_user request w with
  | Some (_, user) =>
      if bool_decide (User.role user ∈ roles) then view_func request
      else
        messages_add level_error "You don't have permission to access this page.";;
        mret (redirect "dashboard" None)
  | None =>
      messages_add level_error "You don't have permission to access this page.";;
      mret (redirect "dashboard" None)
  end.

Definition mac_officer_required := role_required [MAC_OFFICER].
Definition micat_reviewer_required := role_required [MICAT_REVIEWER].
Definition admin_required := role_required [ADMIN].

(** ** Model operations ([core/models.py] and the ORM calls of the views) *)

(** [Submission.can_be_edited_by(self, user)] *)
Definition can_be_edited_by (self : Submission.t) (user_pk : nat) (user : User.t) : bool :=
  if is_admin user then true
  else if is_mac_officer user && bool_decide (Submission.submitted_by self = Some user_pk)
  then bool_decide (Submission.status self ∈ [PENDING; RETURNED])
  else false.

(** [Submission.objects.create(...)]: the columns not given take the
    defaults of the model; [submitted_at] and [updated_at] are stamped. *)
Definition Submission_objects_create (title : string) (content_type : option string)
    (description tags : string) (is_confidential : bool) (file : string)
    (mac : nat) (submitted_by : nat) (status : Status) : View nat :=
  submitted_at ← timezone_now;
  updated_at ← timezone_now;
  w ← get;
  let pk := submission_seq w in
  let row := Submission.mk title content_type description tags file mac
               (Some submitted_by) None status is_confidential false
               "MEDIUM" "" "" submitted_at None None None updated_at in
  modify (λ w, set_submission_seq (S pk) (set_submissions (<[pk := row]> (submissions w)) w));;
  mret pk.

(** [submission.save()]: every column of the in-memory object is written
    to the row with its primary key; [updated_at] is stamped. *)
Definition Submission_save (pk : nat) (submission : Submission.t) : View unit :=
  updated_at ← timezone_now;
  modify (λ w, set_submissions
    (<[pk := Submission.set_updated_at updated_at submission]> (submissions w)) w).

(** [submission.delete()]: the row goes, and with it every row whose
    foreign key to it is declared [on_delete=models.CASCADE]
    ([ActivityLog.submission], [Notification.submission]). *)
Definition Submission_delete (pk : nat) : View unit :=
  modify (λ w,
    set_notifications
      (filter (λ n, Notification.submission n ≠ Some pk) (notifications w))
      (set_activity_logs
         (filter (λ l, ActivityLog.submission l ≠ Some pk) (activity_logs w))
         (set_submissions (delete pk (submissions w)) w))).

(** [User.objects.filter(role='MICAT_REVIEWER', is_active=True)], as the
    primary keys of the rows; the order of the result is the map's. *)
Definition active_micat_reviewers (w : World) : list nat :=
  (filter (λ kv, User.role kv.2 = MICAT_REVIEWER ∧ User.is_active kv.2 = true)
          (map_to_list (users w))).*1.

Fixpoint for_each {A} (l : list A) (body : A → View unit) : View unit :=
  match l with
  | [] => mret tt
  | x :: rest => body x;; for_each rest body
  end.

(** ** The views ([core/views.py]) *)

(** Body of [submission_create] (the function under its decorators). *)
Definition submission_create_body (request : HttpRequest) : View HttpResponse :=
  w ← get;
  match request_user request w with
  | None => mret Http500
  | Some (user_pk, user) =>
    match User.mac user with
    | None =>
        messages_add level_error "You must be assigned to a MAC to submit content.";;
        mret (redirect "dashboard" None)
    | Some mac_pk =>
      match macs w !! mac_pk with
      | None => mret Http500
      | Some user_mac =>
        if bool_decide (method request = POST) then
          let title := POST_data request !! "title" in
          let content_type := POST_data request !! "content_type" in
          let description := POST_data request !! "description" in
          let tags := default "" (POST_data request !! "tags") in
          let is_confidential := is_on (POST_data request !! "is_confidential") in
          let file := FILES request !! "file" in
          let errors : list string :=
            ((if truthy title then [] else ["Title is required"]) ++
             (if truthy description then [] else ["Description is required"]) ++
             (if truthy file then [] else ["File is required"])) in
          match errors with
          | _ :: _ =>
              for_each errors (messages_add level_error);;
              mret (render "core/submission_create.html")
          | [] =>
              let title := default "" title in
              pk ← Submission_objects_create title content_type (default "" description)
                     tags is_confidential (default "" file) mac_pk user_pk PENDING;
              log_activity (Some user_pk) SUBMISSION_CREATED (Some pk)
                ("Created submission: " +:+ title) (Some request);;
              w ← get;
              for_each (active_micat_reviewers w) (λ reviewer,
                create_notification reviewer "New Submission"
                  (MAC.acronym user_mac +:+ " submitted: " +:+ title) (Some pk));;
              messages_add level_success
                "Submission created successfully! It's now pending review.";;
              mret (redirect "submission_detail" (Some pk))
          end
        else mret (render "core/submission_create.html")
      end
    end
  end.

Definition submission_create : HttpRequest → View HttpResponse :=
  login_required (mac_officer_required submission_create_body).

(** Body of [submission_edit] *)
Definition submission_edit_body (pk : nat) (request : HttpRequest) : View HttpResponse :=
  w ← get;
  match submissions w !! pk with
  | None => mret Http404
  | Some submission =>
    match request_user request w with
    | None => mret Http500
    | Some (user_pk, user) =>
      if negb (can_be_edited_by submission user_pk user) then
        messages_add level_error "You don't have permission to edit this submission.";;
        mret (redirect "submission_detail" (Some pk))
      else if bool_decide (method request = POST) then
        let title := POST_data request !! "title" in
        let content_type := POST_data request !! "content_type" in
        let description := POST_data request !! "description" in
        let tags := default "" (POST_data request !! "tags") in
        let is_confidential := is_on (POST_data request !! "is_confidential") in
        let file := FILES request !! "file" in
        let errors : list string :=
          ((if truthy title then [] else ["Title is required"]) ++
           (if truthy description then [] else ["Description is required"])) in
        match errors with
        | _ :: _ =>
            for_each errors (messages_add level_error);;
            mret (render "core/submission_edit.html")
        | [] =>
            let title := default "" title in
            let submission := Submission.set_title title submission in
            let submission := Submission.set_content_type content_type submission in
            let submission := Submission.set_description (default "" description) submission in
            let submission := Submission.set_tags tags submission in
            let submission := Submission.set_is_confidential is_confidential submission in
            let submission :=
              if truthy file then Submission.set_file (default "" file) submission
              else submission in
            let submission :=
              if bool_decide (Submission.status submission = RETURNED)
              then Submission.set_status PENDING submission
              else submission in
            Submission_save pk submission;;
            log_activity (Some user_pk) SUBMISSION_UPDATED (Some pk)
              ("Updated submission: " +:+ title) (Some request);;
            messages_add level_success "Submission updated successfully!";;
            mret (redirect "submission_detail" (Some pk))
        end
      else mret (render "core/submission_edit.html")
    end
  end.

Definition submission_edit (pk : nat) : HttpRequest → View HttpResponse :=
  login_required (submission_edit_body pk).

(** Body of [submission_delete] *)
Definition submission_delete_body (pk : nat) (request : HttpRequest) : View HttpResponse :=
  w ← get;
  match submissions w !! pk with
  | None => mret Http404
  | Some submission =>
    match request_user request w with
    | None => mret Http500
    | Some (user_pk, user) =>
      let can_delete :=
        if is_admin user then true
        else if bool_decide (Submission.submitted_by submission = Some user_pk)
                && bool_decide (Submission.status submission = PENDING)
        then true
        else false in
      if negb can_delete then
        messages_add level_error "You don't have permission to delete this submission.";;
        mret (redirect "submission_detail" (Some pk))
      else if bool_decide (method request = POST) then
        let title := Submission.title submission in
        match macs w !! Submission.mac submission with
        | None => mret Http500
        | Some submission_mac =>
            let mac_name := MAC.acronym submission_mac in
            log_activity (Some user_pk) SUBMISSION_UPDATED None
              ("Deleted submission: " +:+ title +:+ " from " +:+ mac_name) (Some request);;
            Submission_delete pk;;
            messages_add level_success ("Submission '" +:+ title +:+ "' has been deleted.");;
            mret (redirect "submission_list" None)
        end
      else mret (render "core/submission_delete.html")
    end
  end.

Definition submission_delete (pk : nat) : HttpRequest → View HttpResponse :=
  login_required (submission_delete_body pk).

(** [if submission.submitted_by: create_notification(...)] *)
Definition notify_submitter (submission : Submission.t) (title message : string)
    (pk : nat) : View unit :=
  match Submission.submitted_by submission with
  | Some submitter => create_notification submitter title message (Some pk)
  | None => mret tt
  end.

(** The POST branch of [submission_review] up to, and without,
    [submission.save()]: the in-memory object is updated, the audit entry
    and the notification are written.  The result is the object to save. *)
Definition review_decision (pk user_pk : nat) (request : HttpRequest)
    (submission : Submission.t) : View Submission.t :=
  let action := POST_data request !! "action" in
  let comments := default "" (POST_data request !! "reviewer_comments") in
  let priority := default "MEDIUM" (POST_data request !! "priority") in
  let submission := Submission.set_reviewed_by (Some user_pk) submission in
  reviewed_at ← timezone_now;
  let submission := Submission.set_reviewed_at (Some reviewed_at) submission in
  let submission := Submission.set_reviewer_comments comments submission in
  let submission := Submission.set_priority priority submission in
  if bool_decide (action = Some "approve") then
    let submission := Submission.set_status APPROVED submission in
    approved_at ← timezone_now;
    let submission := Submission.set_approved_at (Some approved_at) submission in
    let submission :=
      Submission.set_is_published (is_on (POST_data request !! "publish")) submission in
    submission ←
      (if Submission.is_published submission then
         published_at ← timezone_now;
         mret (Submission.set_published_at (Some published_at) submission)
       else mret submission);
    log_activity (Some user_pk) SUBMISSION_APPROVED (Some pk)
      ("Approved submission: " +:+ Submission.title submission) (Some request);;
    notify_submitter submission "Submission Approved! 🎉"
      ("Your submission '" +:+ Submission.title submission
         +:+ "' has been approved and published.") pk;;
    messages_add level_success "Submission approved successfully!";;
    mret submission
  else if bool_decide (action = Some "return") then
    let submission := Submission.set_status RETURNED submission in
    log_activity (Some user_pk) SUBMISSION_RETURNED (Some pk)
      ("Returned submission for edits: " +:+ Submission.title submission) (Some request);;
    notify_submitter submission "Submission Returned for Edits"
      ("Please review and update your submission '" +:+ Submission.title submission
         +:+ "'. Comments: " +:+ comments) pk;;
    messages_add level_info "Submission returned for edits.";;
    mret submission
  else if bool_decide (action = Some "deny") then
    let submission := Submission.set_status DENIED submission in
    let submission :=
      Submission.set_denial_reason (default "" (POST_data request !! "denial_reason"))
        submission in
    log_activity (Some user_pk) SUBMISSION_DENIED (Some pk)
      ("Denied submission: " +:+ Submission.title submission) (Some request);;
    notify_submitter submission "Submission Denied"
      ("Your submission '" +:+ Submission.title submission
         +:+ "' has been denied. Reason: " +:+ Submission.denial_reason submission) pk;;
    messages_add level_warning "Submission denied.";;
    mret submission
  else mret submission.

(** Body of [submission_review] *)
Definition submission_review_body (pk : nat) (request : HttpRequest) : View HttpResponse :=
  w ← get;
  match submissions w !! pk with
  | None => mret Http404
  | Some submission =>
    match request_user request w with
    | None => mret Http500
    | Some (user_pk, _) =>
      if bool_decide (method request = POST) then
        submission ← review_decision pk user_pk request submission;
        Submission_save pk submission;;
        mret (redirect "submission_detail" (Some pk))
      else mret (render "core/submission_review.html")
    end
  end.

Definition submission_review (pk : nat) : HttpRequest → View HttpResponse :=
  login_required (micat_reviewer_required (submission_review_body pk)).

(** ** Vocabulary of the statements *)

(** The status and the audit tag that [submission_review] attaches to an
    action string: the three branches of its [if/elif] chain. *)
Definition review_outcome (action : option string) : option (Status * LogAction) :=
  if bool_decide (action = Some "approve") then Some (APPROVED, SUBMISSION_APPROVED)
  else if bool_decide (action = Some "return") then Some (RETURNED, SUBMISSION_RETURNED)
  else if bool_decide (action = Some "deny") then Some (DENIED, SUBMISSION_DENIED)
  else None.

(** Python's [sub in s] *)
Definition contains (sub s : string) : bool :=
  match String.index 0 sub s with
  | Some _ => true
  | None => false
  end.

(** A notification with the given title, message and submission, unread. *)
Definition notifies (title message : string) (submission : option nat)
    (n : Notification.t) : Prop :=
  Notification.title n = title ∧ Notification.message n = message ∧
  Notification.submission n = submission ∧ Notification.is_read n = false.

(** The row stored under a primary key (a blank row if there is none). *)
Definition blank_submission : Submission.t :=
  Submission.mk "" None "" "" "" 0 None None PENDING false false "" "" "" 0 None None None 0.

Definition stored (w : World) (pk : nat) : Submission.t :=
  default blank_submission (submissions w !! pk).



(** *** Sequences of requests *)

Inductive Op :=
| op_create (request : HttpRequest)
| op_edit (pk : nat) (request : HttpRequest)
| op_delete (pk : nat) (request : HttpRequest)
| op_review (pk : nat) (request : HttpRequest).

Definition run_op (op : Op) : View HttpResponse :=
  match op with
  | op_create request => submission_create request
  | op_edit pk request => submission_edit pk request
  | op_delete pk request => submission_delete pk request
  | op_review pk request => submission_review pk request
  end.

Fixpoint run_ops (ops : list Op) (w : World) : World :=
  match ops with
  | [] => w
  | op :: rest => run_ops rest (run_op op w).2
  end.


(** *** Two review requests in flight

    [submission_review] reads the row ([get_object_or_404]), works on the
    object in memory while it writes the audit entry and the notification
    ([review_decision]), and writes the row back ([submission.save()]).
    Nothing in the view holds the row between the read and the write, so
    the database statements of two requests interleave at these points. *)

Inductive ReviewThread :=
| Waiting
| Loaded (user_pk : nat) (submission : Submission.t)
| Decided (submission : Submission.t)
| Finished (response : HttpResponse).

Definition review_step (pk : nat) (request : HttpRequest)
    (t : ReviewThread) : View ReviewThread :=
  match t with
  | Waiting =>
      w ← get;
      match request_user request w, submissions w !! pk with
      | Some (user_pk, user), Some submission =>
          if bool_decide (User.role user ∈ [MICAT_REVIEWER])
             && bool_decide (method request = POST)
          then mret (Loaded user_pk submission)
          else response ← submission_review pk request; mret (Finished response)
      | _, _ => response ← submission_review pk request; mret (Finished response)
      end
  | Loaded user_pk submission =>
      submission ← review_decision pk user_pk request submission;
      mret (Decided submission)
  | Decided submission =>
      Submission_save pk submission;;
      mret (Finished (redirect "submission_detail" (Some pk)))
  | Finished response => mret (Finished response)
  end.

(** A schedule names, step by step, the request that moves: [false] the
    first, [true] the second. *)
Fixpoint run_schedule (pk : nat) (request1 request2 : HttpRequest)
    (schedule : list bool) (t1 t2 : ReviewThread) : View (ReviewThread * ReviewThread) :=
  match schedule with
  | [] => mret (t1, t2)
  | false :: rest =>
      t1' ← review_step pk request1 t1;
      run_schedule pk request1 request2 rest t1' t2
  | true :: rest =>
      t2' ← review_step pk request2 t2;
      run_schedule pk request1 request2 rest t1 t2'
  end.







(** *** A small installation used in the examples *)

Definition demo_users : gmap nat User.t :=
  list_to_map
    [(1, User.mk "olu" MAC_OFFICER (Some 1) true);
     (2, User.mk "rita" MICAT_REVIEWER None true);
     (3, User.mk "ron" MICAT_REVIEWER None false);
     (4, User.mk "ada" ADMIN None true);
     (5, User.mk "rex" MICAT_REVIEWER None true);
     (6, User.mk "ike" MAC_OFFICER (Some 2) true);
     (7, User.mk "uma" MAC_OFFICER None true)].

Definition demo_macs : gmap nat MAC.t :=
  list_to_map
    [(1, MAC.mk "Ministry of Health" "MOH" true);
     (2, MAC.mk "Bureau of Concessions" "BOC" false)].

Definition demo_world : World :=
  mkWorld demo_users demo_macs ∅ 1 [] [] [] (λ n, 100 + n) 0.

Definition post_request (user : nat) (data files : list (string * string)) : HttpRequest :=
  mkRequest (Some user) POST (list_to_map data) (list_to_map files) ∅.

Definition flood_update : HttpRequest :=
  post_request 1
    [("title", "Flood Update"); ("content_type", "PRESS_RELEASE");
     ("description", "River levels in Montserrado")]
    [("file", "flood.pdf")].

(** The installation after officer 1 has created submission 1. *)
Definition demo_pending : World := (submission_create flood_update demo_world).2.

(** Requests of the officers. *)

(** Officer 6 belongs to MAC 2, which is not active; officer 7 has no MAC. *)
Definition inactive_mac_request : HttpRequest :=
  post_request 6
    [("title", "Concession Notice"); ("description", "Quarterly list")]
    [("file", "notice.pdf")].

Definition no_mac_request : HttpRequest :=
  post_request 7
    [("title", "Concession Notice"); ("description", "Quarterly list")]
    [("file", "notice.pdf")].

(** Officer 1 edits the title of submission 1. *)
Definition edit_request : HttpRequest :=
  post_request 1
    [("title", "Flood Update (revised)"); ("content_type", "PRESS_RELEASE");
     ("description", "River levels in Montserrado and Bong")] [].

(** Requests of the reviewers and of the administrator. *)

(** Reviewer 2 denies submission 1; later reviewer 5 posts [approve]. *)
Definition deny_request : HttpRequest :=
  post_request 2 [("action", "deny"); ("denial_reason", "Incomplete data")] [].


Definition return_request : HttpRequest :=
  post_request 2
    [("action", "return"); ("reviewer_comments", "Add the county figures")] [].

(** Reviewer 2 approves and publishes submission 1. *)
Definition publish_request : HttpRequest :=
  post_request 2 [("action", "approve"); ("publish", "on")] [].



(** The administrator posts [approve] on the pending submission. *)
Definition admin_approve_request : HttpRequest :=
  post_request 4 [("action", "approve"); ("publish", "on")] [].

(** The administrator deletes submission 1. *)
Definition admin_delete_request : HttpRequest := post_request 4 [] [].

(** Worlds reached from [demo_pending]. *)


(** Submission 1 after reviewer 2 has returned it for edits. *)
Definition demo_returned : World := (submission_review 1 return_request demo_pending).2.

Definition demo_published : World := (submission_review 1 publish_request demo_pending).2.



(** ** Further vocabulary: effects, invariants, other views *)

(** Nothing but the flash messages and the clock differs. *)
Definition same_tables (w w' : World) : Prop :=
  users w' = users w ∧ macs w' = macs w ∧ submissions w' = submissions w ∧
  submission_seq w' = submission_seq w ∧ activity_logs w' = activity_logs w ∧
  notifications w' = notifications w ∧ time_source w' = time_source w.

(** [can_delete] of [submission_delete] *)
Definition can_delete (submission : Submission.t) (user_pk : nat) (user : User.t) : bool :=
  if is_admin user then true
  else if bool_decide (Submission.submitted_by submission = Some user_pk)
          && bool_decide (Submission.status submission = PENDING)
  then true
  else false.

(** The fields an officer's edit has no business with. *)
Definition review_fields_kept (s s' : Submission.t) : Prop :=
  Submission.mac s' = Submission.mac s ∧
  Submission.submitted_by s' = Submission.submitted_by s ∧
  Submission.submitted_at s' = Submission.submitted_at s ∧
  Submission.reviewed_by s' = Submission.reviewed_by s ∧
  Submission.reviewed_at s' = Submission.reviewed_at s ∧
  Submission.reviewer_comments s' = Submission.reviewer_comments s ∧
  Submission.denial_reason s' = Submission.denial_reason s ∧
  Submission.priority s' = Submission.priority s ∧
  Submission.is_published s' = Submission.is_published s ∧
  Submission.approved_at s' = Submission.approved_at s ∧
  Submission.published_at s' = Submission.published_at s.

(** The fields a review has no business with. *)
Definition content_kept (s s' : Submission.t) : Prop :=
  Submission.title s' = Submission.title s ∧
  Submission.content_type s' = Submission.content_type s ∧
  Submission.description s' = Submission.description s ∧
  Submission.tags s' = Submission.tags s ∧
  Submission.file s' = Submission.file s ∧
  Submission.is_confidential s' = Submission.is_confidential s ∧
  Submission.mac s' = Submission.mac s ∧
  Submission.submitted_by s' = Submission.submitted_by s ∧
  Submission.submitted_at s' = Submission.submitted_at s.

(** The request an operation carries. *)
Definition op_request (op : Op) : HttpRequest :=
  match op with
  | op_create request => request
  | op_edit _ request => request
  | op_delete _ request => request
  | op_review _ request => request
  end.

(** Every submission that a notification or an audit entry names exists. *)
Definition references_resolve (w : World) : Prop :=
  (∀ n k, n ∈ notifications w → Notification.submission n = Some k →
          is_Some (submissions w !! k)) ∧
  (∀ e k, e ∈ activity_logs w → ActivityLog.submission e = Some k →
          is_Some (submissions w !! k)).

(** No row sits at or above the next primary key. *)
Definition keys_below_sequence (w : World) : Prop :=
  ∀ k, submission_seq w ≤ k → submissions w !! k = None.





Definition comma : Ascii.ascii := Ascii.ascii_of_nat 44.

(** The complaints of [submission_create] about a form, in the order in
    which the view collects them. *)
Definition create_errors (request : HttpRequest) : list string :=
  (if truthy (POST_data request !! "title") then [] else ["Title is required"]) ++
  (if truthy (POST_data request !! "description") then []
   else ["Description is required"]) ++
  (if truthy (FILES request !! "file") then [] else ["File is required"]).

(** The complaints of [submission_edit]: the file is optional. *)
Definition edit_errors (request : HttpRequest) : list string :=
  (if truthy (POST_data request !! "title") then [] else ["Title is required"]) ++
  (if truthy (POST_data request !! "description") then []
   else ["Description is required"]).

(** [messages.error] for each complaint. *)
Definition error_messages (errors : list string) : list (Level * string) :=
  (λ text, (level_error, text)) <$> errors.

(** A day at the installation: officer 1 submits, reviewer 2 returns the
    submission, the officer edits it, reviewer 2 approves and publishes
    it, the administrator deletes it. *)
Definition officer_delete_request : HttpRequest := post_request 1 [] [].


(** Forms with a field missing. *)
Definition incomplete_create_request : HttpRequest :=
  post_request 1 [("title", "Flood Update"); ("description", "")] [].

Definition incomplete_edit_request : HttpRequest :=
  post_request 1 [("description", "River levels")] [("file", "flood-2.pdf")].

(** The audit entry that [flood_update] leaves. *)
Definition flood_update_entry : ActivityLog.t :=
  ActivityLog.mk (Some 1) SUBMISSION_CREATED (Some 1)
    "Created submission: Flood Update" None 102.

(** *** Accounts and MACs ([user_delete], [mac_delete]) *)

From stdpp Require Import pretty.

Definition set_users v w := mkWorld v (macs w) (submissions w) (submission_seq w) (activity_logs w) (notifications w) (flash w) (time_source w) (time_reads w).
Definition set_macs v w := mkWorld (users w) v (submissions w) (submission_seq w) (activity_logs w) (notifications w) (flash w) (time_source w) (time_reads w).

(** [on_delete=models.SET_NULL] on a foreign key to the row [pk] *)
Definition set_null (pk : nat) (fk : option nat) : option nat :=
  if bool_decide (fk = Some pk) then None else fk.

Definition Submission_forget_user (pk : nat) (s : Submission.t) : Submission.t :=
  Submission.mk (Submission.title s) (Submission.content_type s)
    (Submission.description s) (Submission.tags s) (Submission.file s)
    (Submission.mac s) (set_null pk (Submission.submitted_by s))
    (set_null pk (Submission.reviewed_by s)) (Submission.status s)
    (Submission.is_confidential s) (Submission.is_published s)
    (Submission.priority s) (Submission.reviewer_comments s)
    (Submission.denial_reason s) (Submission.submitted_at s)
    (Submission.reviewed_at s) (Submission.approved_at s)
    (Submission.published_at s) (Submission.updated_at s).

Definition ActivityLog_forget_user (pk : nat) (l : ActivityLog.t) : ActivityLog.t :=
  ActivityLog.mk (set_null pk (ActivityLog.user l)) (ActivityLog.action l)
    (ActivityLog.submission l) (ActivityLog.description l)
    (ActivityLog.ip_address l) (ActivityLog.created_at l).

Definition User_forget_mac (pk : nat) (u : User.t) : User.t :=
  User.mk (User.username u) (User.role u) (set_null pk (User.mac u)) (User.is_active u).

(** [user.delete()]: the row goes; [Submission.submitted_by],
    [Submission.reviewed_by] and [ActivityLog.user] are [SET_NULL],
    [Notification.user] is [CASCADE].  The update that sets a column to
    NULL is no [save()]: [updated_at] stays. *)
Definition User_delete (pk : nat) : View unit :=
  modify (λ w,
    set_users (delete pk (users w))
      (set_submissions (Submission_forget_user pk <$> submissions w)
         (set_activity_logs (ActivityLog_forget_user pk <$> activity_logs w)
            (set_notifications
               (filter (λ n, Notification.user n ≠ pk) (notifications w)) w)))).

(** The MAC of the submission that a nullable foreign key names. *)
Definition mac_of_submission (w : World) (fk : option nat) : option nat :=
  k ← fk; Submission.mac <$> submissions w !! k.

(** [mac.delete()]: the row goes; [Submission.mac] is [CASCADE], and the
    submissions that go take their audit entries and notifications with
    them; [User.mac] is [SET_NULL]. *)
Definition MAC_delete (pk : nat) : View unit :=
  modify (λ w,
    set_macs (delete pk (macs w))
      (set_users (User_forget_mac pk <$> users w)
         (set_submissions
            (filter (λ kv, Submission.mac kv.2 ≠ pk) (submissions w))
            (set_activity_logs
               (filter (λ l, mac_of_submission w (ActivityLog.submission l) ≠ Some pk)
                       (activity_logs w))
               (set_notifications
                  (filter (λ n, mac_of_submission w (Notification.submission n) ≠ Some pk)
                          (notifications w)) w))))).

(** Body of [user_delete] *)
Definition user_delete_body (pk : nat) (request : HttpRequest) : View HttpResponse :=
  w ← get;
  match users w !! pk with
  | None => mret Http404
  | Some user =>
    match request_user request w with
    | None => mret Http500
    | Some (request_user_pk, _) =>
      if bool_decide (pk = request_user_pk) then
        messages_add level_error "You cannot delete your own account!";;
        mret (redirect "user_list" None)
      else if bool_decide (method request = POST) then
        let username := User.username user in
        log_activity (Some request_user_pk) USER_UPDATED None
          ("Deleted user: " +:+ username) (Some request);;
        User_delete pk;;
        messages_add level_success ("User '" +:+ username +:+ "' has been deleted.");;
        mret (redirect "user_list" None)
      else mret (render "core/user_delete.html")
    end
  end.

Definition user_delete (pk : nat) : HttpRequest → View HttpResponse :=
  login_required (admin_required (user_delete_body pk)).

(** [mac.users.count()], [mac.submissions.count()] *)
Definition MAC_users_count (pk : nat) (w : World) : nat :=
  size (filter (λ kv : nat * User.t, User.mac kv.2 = Some pk) (users w)).

Definition MAC_submissions_count (pk : nat) (w : World) : nat :=
  size (filter (λ kv : nat * Submission.t, Submission.mac kv.2 = pk) (submissions w)).

(** Body of [mac_delete] *)
Definition mac_delete_body (pk : nat) (request : HttpRequest) : View HttpResponse :=
  w ← get;
  match macs w !! pk with
  | None => mret Http404
  | Some mac =>
    match request_user request w with
    | None => mret Http500
    | Some (user_pk, _) =>
      let user_count := MAC_users_count pk w in
      let submission_count := MAC_submissions_count pk w in
      if bool_decide (method request = POST) then
        let acronym := MAC.acronym mac in
        log_activity (Some user_pk) MAC_UPDATED None
          ("Deleted MAC: " +:+ acronym +:+ " (" +:+ pretty user_count +:+ " users, "
             +:+ pretty submission_count +:+ " submissions)") (Some request);;
        MAC_delete pk;;
        messages_add level_success ("MAC '" +:+ acronym +:+ "' has been deleted.");;
        mret (redirect "mac_list" None)
      else mret (render "core/mac_delete.html")
    end
  end.

Definition mac_delete (pk : nat) : HttpRequest → View HttpResponse :=
  login_required (admin_required (mac_delete_body pk)).

(** *** Requests to any of the six views that write to the tables *)

Inductive Request :=
| to_submissions (op : Op)
| to_user_delete (pk : nat) (request : HttpRequest)
| to_mac_delete (pk : nat) (request : HttpRequest).

Definition serve (r : Request) : View HttpResponse :=
  match r with
  | to_submissions op => run_op op
  | to_user_delete pk request => user_delete pk request
  | to_mac_delete pk request => mac_delete pk request
  end.

Fixpoint serve_all (rs : list Request) (w : World) : World :=
  match rs with
  | [] => w
  | r :: rest => serve_all rest (serve r w).2
  end.

(** Every foreign key of every row names a row that exists. *)
Definition foreign_keys_resolve (w : World) : Prop :=
  (∀ k u m, users w !! k = Some u → User.mac u = Some m → is_Some (macs w !! m)) ∧
  (∀ k s, submissions w !! k = Some s →
     is_Some (macs w !! Submission.mac s) ∧
     (∀ u, Submission.submitted_by s = Some u → is_Some (users w !! u)) ∧
     (∀ u, Submission.reviewed_by s = Some u → is_Some (users w !! u))) ∧
  (∀ e, e ∈ activity_logs w →
     (∀ u, ActivityLog.user e = Some u → is_Some (users w !! u)) ∧
     (∀ k, ActivityLog.submission e = Some k → is_Some (submissions w !! k))) ∧
  (∀ n, n ∈ notifications w →
     is_Some (users w !! Notification.user n) ∧
     (∀ k, Notification.submission n = Some k → is_Some (submissions w !! k))).

(** Some account has the role ADMIN. *)
Definition has_administrator (w : World) : Prop :=
  ∃ k u, users w !! k = Some u ∧ User.role u = ADMIN.

(** The administrator removes the account of officer 1, then MAC 1. *)
Definition demo_cleanup : list Request :=
  [to_submissions (op_create flood_update);
   to_submissions (op_review 1 publish_request);
   to_user_delete 1 admin_delete_request;
   to_mac_delete 1 admin_delete_request].

(** Officer 1 asks for the removal of the own account. *)
Definition officer_post : HttpRequest := post_request 1 [] [].

(** *** The views that only read ([submission_list], [content_library],
    [activity_log], [dashboard])

    What such a view hands to its template is its [context]; the model
    keeps it beside the response.  [request.GET] is an argument of its own.
    Two things are the database's to decide and stay open: what
    [icontains] matches, and which integer a [mac_id=...] lookup makes of
    a GET value ([None] where Django raises ValueError, answered by 500).
    Rows with equal sort keys come in the order merge sort leaves them in;
    NULL sorts below every time. *)

From stdpp Require Import sorting.

Inductive Page (C : Type) :=
| rendered (template : string) (context : C)
| answered (response : HttpResponse).

Arguments rendered {C} template context.
Arguments answered {C} response.

(** The column value of a status ([STATUS_CHOICES]). *)
Definition status_name (st : Status) : string :=
  match st with
  | PENDING => "PENDING"
  | UNDER_REVIEW => "UNDER_REVIEW"
  | APPROVED => "APPROVED"
  | DENIED => "DENIED"
  | RETURNED => "RETURNED"
  end.

(** [queryset.order_by('-column')] *)
Definition order_by_desc {A} (column : A → nat) (rows : list A) : list A :=
  @merge_sort A (λ a b, column b ≤ column a)
    (λ a b, decide (column b ≤ column a)) rows.

(** A nullable time as a sort key *)
Definition nulls_last (t : option nat) : nat :=
  match t with
  | Some t => S t
  | None => 0
  end.

Definition Submission_objects_all (w : World) : list (nat * Submission.t) :=
  map_to_list (submissions w).

(** [Submission.objects.filter(mac=user.mac)]: reading [user.mac] follows
    the foreign key; [mac=None] matches no row. *)
Definition Submission_objects_of_mac_of (user : User.t) (w : World)
    : option (list (nat * Submission.t)) :=
  match User.mac user with
  | None => Some []
  | Some m =>
      match macs w !! m with
      | None => None
      | Some _ =>
          Some (filter (λ kv, Submission.mac kv.2 = m) (Submission_objects_all w))
      end
  end.

(** [queryset.filter(status=...).count()] *)
Definition count_status (st : Status) (rows : list (nat * Submission.t)) : nat :=
  length (filter (λ kv, Submission.status kv.2 = st) rows).

(** [MAC.objects.filter(is_active=True)], in the order of [Meta.ordering]
    (the acronym, compared byte by byte). *)
Definition active_macs (w : World) : list (nat * MAC.t) :=
  @merge_sort _ (λ a b, String.leb (MAC.acronym a.2) (MAC.acronym b.2) = true)
    (λ a b, decide (String.leb (MAC.acronym a.2) (MAC.acronym b.2) = true))
    (filter (λ kv, MAC.is_active kv.2 = true) (map_to_list (macs w))).

(** [Notification.objects.filter(user=user, is_read=False).count()] *)
Definition unread_count_of (user_pk : nat) (w : World) : nat :=
  length (filter (λ n, Notification.user n = user_pk ∧ Notification.is_read n = false)
                 (notifications w)).

(** [ActivityLog.objects.all()], in the order of [Meta.ordering] *)
Definition ActivityLog_objects_all (w : World) : list ActivityLog.t :=
  order_by_desc ActivityLog.created_at (activity_logs w).

Module StatusCounts.
Record t := mk {
    all : nat;
    pending : nat;
    under_review : nat;
    approved : nat;
    denied : nat;
    returned : nat
  }.

(** The count on the tab of one status. *)
Definition on_tab (st : Status) (c : t) : nat :=
  match st with
  | PENDING => pending c
  | UNDER_REVIEW => under_review c
  | APPROVED => approved c
  | DENIED => denied c
  | RETURNED => returned c
  end.
End StatusCounts.

Module SubmissionList.
Record context := mk {
    submissions : list (nat * Submission.t);
    macs : option (list (nat * MAC.t));
    status_counts : StatusCounts.t;
    current_status : option string;
    current_mac : option string;
    search_query : option string;
    unread_count : nat
  }.
End SubmissionList.

Module ContentLibrary.
Record context := mk {
    content : list (nat * Submission.t);
    macs : list (nat * MAC.t);
    unread_count : nat
  }.
End ContentLibrary.

Module ActivityLogPage.
Record context := mk {
    logs : list ActivityLog.t;
    unread_count : nat
  }.
End ActivityLogPage.

Module Dashboard.
Record context := mk {
    stats : gmap string nat;
    recent_submissions : list (nat * Submission.t);
    recent_activity : list ActivityLog.t;
    unread_count : nat
  }.
End Dashboard.

Section Queries.

Variable icontains : string → string → bool.   (* text, then column value *)
Variable to_pk : string → option nat.
Variable date : nat → nat.                     (* the day of a time *)

(** [Q(title__icontains=search) | Q(description__icontains=search) |
    Q(tags__icontains=search)] *)
Definition matches_search (search : string) (s : Submission.t) : bool :=
  icontains search (Submission.title s)
  || icontains search (Submission.description s)
  || icontains search (Submission.tags s).

(** [submission_list] under [@login_required] *)
Definition submission_list (request : HttpRequest) (GET_data : gmap string string)
    (w : World) : Page SubmissionList.context :=
  match request_user request w with
  | None => answered (redirect "login" None)
  | Some (user_pk, user) =>
    let status_filter := GET_data !! "status" in
    let mac_filter := GET_data !! "mac" in
    let search := GET_data !! "search" in
    let queryset : option (list (nat * Submission.t)) :=
      submissions ←
        (if is_mac_officer user then Submission_objects_of_mac_of user w
         else Some (Submission_objects_all w));
      let submissions :=
        if truthy status_filter
        then filter (λ kv, Some (status_name (Submission.status kv.2)) = status_filter)
                    submissions
        else submissions in
      submissions ←
        (if truthy mac_filter && negb (is_mac_officer user)
         then mac_id ← to_pk (default "" mac_filter);
              Some (filter (λ kv, Submission.mac kv.2 = mac_id) submissions)
         else Some submissions);
      let submissions :=
        if truthy search
        then filter (λ kv, matches_search (default "" search) kv.2 = true) submissions
        else submissions in
      Some (order_by_desc (λ kv, Submission.submitted_at kv.2) submissions) in
    match queryset with
    | None => answered Http500
    | Some submissions =>
        rendered "core/submission_list.html"
          (SubmissionList.mk submissions
             (if negb (is_mac_officer user) then Some (active_macs w) else None)
             (StatusCounts.mk (length submissions)
                (count_status PENDING submissions)
                (count_status UNDER_REVIEW submissions)
                (count_status APPROVED submissions)
                (count_status DENIED submissions)
                (count_status RETURNED submissions))
             status_filter mac_filter search
             (unread_count_of user_pk w))
    end
  end.

(** [content_library] under [@login_required] *)
Definition content_library (request : HttpRequest) (GET_data : gmap string string)
    (w : World) : Page ContentLibrary.context :=
  match request_user request w with
  | None => answered (redirect "login" None)
  | Some (user_pk, user) =>
    let content :=
      order_by_desc (λ kv, nulls_last (Submission.published_at kv.2))
        (filter (λ kv, Submission.status kv.2 = APPROVED ∧
                       Submission.is_published kv.2 = true)
                (Submission_objects_all w)) in
    let content_type_filter := GET_data !! "type" in
    let mac_filter := GET_data !! "mac" in
    let search := GET_data !! "search" in
    let content :=
      if truthy content_type_filter
      then filter (λ kv, Submission.content_type kv.2 = content_type_filter) content
      else content in
    let queryset : option (list (nat * Submission.t)) :=
      content ←
        (if truthy mac_filter
         then mac_id ← to_pk (default "" mac_filter);
              Some (filter (λ kv, Submission.mac kv.2 = mac_id) content)
         else Some content);
      Some (if truthy search
            then filter (λ kv, matches_search (default "" search) kv.2 = true) content
            else content) in
    match queryset with
    | None => answered Http500
    | Some content =>
        rendered "core/content_library.html"
          (ContentLibrary.mk content (active_macs w) (unread_count_of user_pk w))
    end
  end.

(** [activity_log] under [@login_required] *)
Definition activity_log (request : HttpRequest) (w : World)
    : Page ActivityLogPage.context :=
  match request_user request w with
  | None => answered (redirect "login" None)
  | Some (user_pk, user) =>
    let logs :=
      if is_admin user then take 100 (ActivityLog_objects_all w)
      else take 50 (filter (λ l, ActivityLog.user l = Some user_pk)
                           (ActivityLog_objects_all w)) in
    rendered "core/activity_log.html"
      (ActivityLogPage.mk logs (unread_count_of user_pk w))
  end.

(** [get_dashboard_stats(user)] ([core/utils.py]).  Only the branch of the
    administrator reads the clock, and only if some submission is
    approved. *)
Definition get_dashboard_stats (user_pk : nat) (user : User.t)
    : View (option (gmap string nat)) :=
  w ← get;
  if is_mac_officer user then
    mret (rows ← Submission_objects_of_mac_of user w;
          Some (list_to_map
            [("total", length rows);
             ("pending", count_status PENDING rows);
             ("under_review", count_status UNDER_REVIEW rows);
             ("approved", count_status APPROVED rows);
             ("denied", count_status DENIED rows);
             ("returned", count_status RETURNED rows)]))
  else if is_micat_reviewer user then
    let rows := Submission_objects_all w in
    mret (Some (list_to_map
      [("total", length rows);
       ("pending", count_status PENDING rows);
       ("under_review", count_status UNDER_REVIEW rows);
       ("approved", count_status APPROVED rows);
       ("denied", count_status DENIED rows);
       ("returned", count_status RETURNED rows);
       ("my_reviews",
        length (filter (λ kv, Submission.reviewed_by kv.2 = Some user_pk) rows))]))
  else if is_admin user then
    let rows := Submission_objects_all w in
    let approved := filter (λ kv, Submission.status kv.2 = APPROVED) rows in
    approved_today ←
      (match approved with
       | [] => mret 0
       | _ :: _ =>
           now ← timezone_now;
           mret (length (filter (λ kv, date <$> Submission.approved_at kv.2 = Some (date now))
                                approved))
       end);
    mret (Some (list_to_map
      [("total_submissions", length rows);
       ("pending", count_status PENDING rows);
       ("total_users",
        length (filter (λ kv, User.is_active kv.2 = true) (map_to_list (users w))));
       ("total_macs",
        length (filter (λ kv, MAC.is_active kv.2 = true) (map_to_list (macs w))));
       ("approved_today", approved_today)]))
  else mret (Some ∅).

(** [dashboard] under [@login_required] *)
Definition dashboard (request : HttpRequest) : View (Page Dashboard.context) :=
  w ← get;
  match request_user request w with
  | None => mret (answered (redirect "login" None))
  | Some (user_pk, user) =>
    stats ← get_dashboard_stats user_pk user;
    w ← get;
    let recent_submissions : option (list (nat * Submission.t)) :=
      if is_mac_officer user then
        match User.mac user with
        | Some _ =>
            rows ← Submission_objects_of_mac_of user w;
            Some (take 10 (order_by_desc (λ kv, Submission.submitted_at kv.2) rows))
        | None => Some []
        end
      else if is_micat_reviewer user then
        Some (take 10 (order_by_desc (λ kv, Submission.submitted_at kv.2)
                (filter (λ kv, Submission.status kv.2 ∈ [PENDING; UNDER_REVIEW])
                        (Submission_objects_all w))))
      else
        Some (take 10 (order_by_desc (λ kv, Submission.submitted_at kv.2)
                         (Submission_objects_all w))) in
    match stats, recent_submissions with
    | Some stats, Some recent_submissions =>
        mret (rendered "core/dashboard.html"
                (Dashboard.mk stats recent_submissions
                   (take 10 (ActivityLog_objects_all w))
                   (unread_count_of user_pk w)))
    | _, _ => mret (answered Http500)
    end
  end.

End Queries.

(** Choices for the examples: [icontains] on ASCII letters, as SQLite's
    LIKE compares them; a GET value of plain decimal digits as a primary
    key; days of 86400 seconds. *)
Definition lower_ascii (c : Ascii.ascii) : Ascii.ascii :=
  let n := Ascii.nat_of_ascii c in
  if (65 <=? n) && (n <=? 90) then Ascii.ascii_of_nat (n + 32) else c.

Fixpoint lower (s : string) : string :=
  match s with
  | EmptyString => EmptyString
  | String c r => String (lower_ascii c) (lower r)
  end.

Definition ascii_icontains (text column : string) : bool :=
  contains (lower text) (lower column).

Definition digit (c : Ascii.ascii) : option nat :=
  let n := Ascii.nat_of_ascii c in
  if (48 <=? n) && (n <=? 57) then Some (n - 48) else None.

Fixpoint decimal_from (acc : nat) (s : string) : option nat :=
  match s with
  | EmptyString => Some acc
  | String c r => d ← digit c; decimal_from (10 * acc + d) r
  end.

Definition decimal (s : string) : option nat :=
  match s with
  | EmptyString => None
  | _ => decimal_from 0 s
  end.

Definition day_of (t : nat) : nat := t / (24 * 60 * 60).

Definition get_request (user : nat) : HttpRequest := mkRequest (Some user) GET ∅ ∅ ∅.

(** An officer asks the list for the submissions of MAC 2. *)
Definition other_mac_query : gmap string string := list_to_map [("mac", "2")].

Definition approved_query : gmap string string := list_to_map [("status", "APPROVED")].

(** *** [submission_detail] and the comments

    The [Comment] table is handed to the view and handed back, beside the
    response.  [str.strip] is Python's and stays open. *)

Module Comment.
Record t := mk {
    submission : nat;                (* ForeignKey(Submission, CASCADE) *)
    user : nat;                      (* ForeignKey(User, CASCADE) *)
    text : string;
    is_internal : bool;
    created_at : nat                 (* auto_now_add *)
  }.
End Comment.

Module SubmissionDetail.
Record context := mk {
    submission : nat * Submission.t;
    comments : list Comment.t;
    can_edit : bool;
    tag_list : list string
  }.
End SubmissionDetail.

(** [s.split(',')] *)
Fixpoint split_comma (s : string) : list string :=
  match s with
  | EmptyString => [EmptyString]
  | String c r =>
      if Ascii.eqb c comma then EmptyString :: split_comma r
      else match split_comma r with
           | segment :: rest => String c segment :: rest
           | [] => [String c EmptyString]
           end
  end.

(** [Comment.objects.create(...)] *)
Definition Comment_objects_create (submission user : nat) (text : string)
    (is_internal : bool) (comments : list Comment.t) : View (list Comment.t) :=
  created_at ← timezone_now;
  mret (comments ++ [Comment.mk submission user text is_internal created_at]).

(** [can_view] of [submission_detail]; reading [submission.mac] and
    [user.mac] follows the foreign keys. *)
Definition can_view (submission : Submission.t) (user : User.t) (w : World)
    : option bool :=
  if is_admin user then Some true
  else if is_micat_reviewer user then Some true
  else if is_mac_officer user then
    _ ← macs w !! Submission.mac submission;
    match User.mac user with
    | None => Some false
    | Some m => _ ← macs w !! m; Some (bool_decide (Submission.mac submission = m))
    end
  else Some false.

Section Detail.

Variable strip : string → string.

(** [[tag.strip() for tag in tags.split(',') if tag.strip()]] *)
Definition tag_list_of (tags : string) : list string :=
  if bool_decide (tags = "") then []
  else filter (λ tag, tag ≠ "") (strip <$> split_comma tags).

(** [submission_detail] under [@login_required] *)
Definition submission_detail (pk : nat) (request : HttpRequest)
    (comments : list Comment.t)
    : View (Page SubmissionDetail.context * list Comment.t) :=
  w ← get;
  match request_user request w with
  | None => mret (answered (redirect "login" None), comments)
  | Some (user_pk, user) =>
    match submissions w !! pk with
    | None => mret (answered Http404, comments)
    | Some submission =>
      match can_view submission user w with
      | None => mret (answered Http500, comments)
      | Some false =>
          messages_add level_error "You don't have permission to view this submission.";;
          mret (answered (redirect "dashboard" None), comments)
      | Some true =>
        let page (comments : list Comment.t) : Page SubmissionDetail.context :=
          let of_submission :=
            order_by_desc Comment.created_at
              (filter (λ c, Comment.submission c = pk) comments) in
          let shown :=
            if is_micat_reviewer user || is_admin user then of_submission
            else filter (λ c, Comment.is_internal c = false) of_submission in
          rendered "core/submission_detail.html"
            (SubmissionDetail.mk (pk, submission) shown
               (can_be_edited_by submission user_pk user)
               (tag_list_of (Submission.tags submission))) in
        let comment_text := POST_data request !! "comment_text" in
        let is_internal := is_on (POST_data request !! "is_internal") in
        if bool_decide (method request = POST)
           && bool_decide (is_Some (POST_data request !! "add_comment"))
        then
          if is_micat_reviewer user then
            if truthy comment_text then
              comments ← Comment_objects_create pk user_pk (default "" comment_text)
                           is_internal comments;
              log_activity (Some user_pk) COMMENT_ADDED (Some pk)
                ("Added comment on '" +:+ Submission.title submission +:+ "'")
                (Some request);;
              (if negb is_internal
               then notify_submitter submission "New Comment"
                      ("MICAT added a comment on '" +:+ Submission.title submission
                         +:+ "'") pk
               else mret tt);;
              messages_add level_success "Comment added successfully!";;
              mret (answered (redirect "submission_detail" (Some pk)), comments)
            else mret (page comments, comments)
          else mret (page comments, comments)
        else mret (page comments, comments)
      end
    end
  end.

End Detail.

(** A comment form, internal or not. *)
Definition comment_request (internal : bool) : HttpRequest :=
  post_request 2
    ([("add_comment", ""); ("comment_text", "Please add the county figures")] ++
     (if internal then [("is_internal", "on")] else [])) [].

(** * Properties *)

Arguments request_user : simpl never.
Arguments client_ip : simpl never.
Arguments review_decision : simpl never.
Arguments active_micat_reviewers : simpl never.
Arguments Nat.min : simpl never.

Ltac run_view :=
  unfold mbind, View_bind, mret, View_ret, get, modify, messages_add; simpl.

(** Closed goals about the example installation are settled by evaluation. *)
Ltac by_evaluation :=
  lazymatch goal with
  | |- _ ∧ _ => split; by_evaluation
  | |- is_Some _ => vm_compute; by eexists
  | |- _ => vm_compute; reflexivity
  end.

Ltac review_cases :=
  unfold review_decision, review_outcome, log_activity, notify_submitter,
    create_notification, timezone_now;
  repeat case_bool_decide; run_view;
  repeat (case_match; run_view); simplify_eq/=.

(** ** The decorators *)

Section Decorators.
Variable view : HttpRequest → View HttpResponse.
Variables (request : HttpRequest) (w : World).

Lemma login_required_run x :
  request_user request w = Some x →
  login_required view request w = view request w.
Proof. intros H. unfold login_required. run_view. by rewrite H. Qed.

Lemma login_required_anonymous :
  request_user request w = None →
  login_required view request w = (redirect "login" None, w).
Proof. intros H. unfold login_required. run_view. by rewrite H. Qed.

Lemma role_required_run roles pk user :
  request_user request w = Some (pk, user) → User.role user ∈ roles →
  role_required roles view request w = view request w.
Proof.
  intros H Hin. unfold role_required. run_view. rewrite H.
  by rewrite bool_decide_eq_true_2.
Qed.

Lemma role_required_denied roles pk user :
  request_user request w = Some (pk, user) → User.role user ∉ roles →
  role_required roles view request w =
  (redirect "dashboard" None,
   set_flash (flash w ++ [(level_error, "You don't have permission to access this page.")]) w).
Proof.
  intros H Hin. unfold role_required. run_view. rewrite H.
  by rewrite bool_decide_eq_false_2.
Qed.

End Decorators.

(** ** [review_decision]: what the POST branch does before saving *)

Section ReviewDecision.
Variables (pk user_pk : nat) (request : HttpRequest).
Variables (s : Submission.t) (w : World).

Let action := POST_data request !! "action".
Let r := review_decision pk user_pk request s w.

Lemma review_decision_tables :
  users r.2 = users w ∧ macs r.2 = macs w ∧ submissions r.2 = submissions w ∧
  submission_seq r.2 = submission_seq w ∧ time_source r.2 = time_source w.
Proof. subst r action. review_cases; done. Qed.

Lemma review_decision_status :
  Submission.status r.1 =
  match review_outcome action with
  | Some (st, _) => st
  | None => Submission.status s
  end.
Proof. subst r action. review_cases; done. Qed.

Lemma review_decision_reviewer :
  Submission.reviewed_by r.1 = Some user_pk ∧
  Submission.reviewed_at r.1 = Some (time_source w (time_reads w)) ∧
  Submission.reviewer_comments r.1 = default "" (POST_data request !! "reviewer_comments") ∧
  Submission.priority r.1 = default "MEDIUM" (POST_data request !! "priority").
Proof. subst r action. review_cases; done. Qed.

Lemma review_decision_logs :
  ∃ description created_at,
    activity_logs r.2 =
    activity_logs w ++
    match review_outcome action with
    | Some (_, tag) =>
        [ActivityLog.mk (Some user_pk) tag (Some pk) description
           (client_ip request) created_at]
    | None => []
    end.
Proof.
  subst r action. review_cases; rewrite ?app_nil_r; eauto; by exists "", 0.
Qed.

Lemma review_decision_notifications :
  ∃ title message created_at,
    notifications r.2 =
    notifications w ++
    match review_outcome action, Submission.submitted_by s with
    | Some _, Some submitter =>
        [Notification.mk submitter title message (Some pk) false created_at]
    | _, _ => []
    end.
Proof.
  subst r action. review_cases; rewrite ?app_nil_r; eauto; by exists "", "", 0.
Qed.

Lemma review_decision_approved_at :
  Submission.approved_at r.1 =
  if bool_decide (action = Some "approve")
  then Some (time_source w (S (time_reads w)))
  else Submission.approved_at s.
Proof. subst r action. review_cases; done. Qed.

Lemma review_decision_published_at :
  Submission.published_at r.1 =
  if bool_decide (action = Some "approve") && is_on (POST_data request !! "publish")
  then Some (time_source w (S (S (time_reads w))))
  else Submission.published_at s.
Proof.
  subst r action. unfold review_decision, timezone_now.
  repeat case_bool_decide; run_view;
    try destruct (is_on (POST_data request !! "publish")); run_view;
    unfold log_activity, notify_submitter, create_notification, timezone_now;
    run_view; repeat (case_match; run_view); done.
Qed.

End ReviewDecision.

(** ** [submission_review] *)

(** A reviewer's POST runs [review_decision] on the row and saves the
    result. *)
Lemma submission_review_post w pk s request user_pk user :
  submissions w !! pk = Some s →
  request_user request w = Some (user_pk, user) →
  User.role user = MICAT_REVIEWER → method request = POST →
  submission_review pk request w =
  let r := review_decision pk user_pk request s w in
  (redirect "submission_detail" (Some pk), (Submission_save pk r.1 r.2).2).
Proof.
  intros Hrow Huser Hrole Hpost. unfold submission_review, micat_reviewer_required.
  rewrite (login_required_run _ _ _ _ Huser).
  rewrite (role_required_run _ _ _ _ _ _ Huser) by (by apply list_elem_of_singleton).
  unfold submission_review_body. run_view. rewrite Hrow, Huser.
  rewrite bool_decide_eq_true_2 by done.
  by destruct (review_decision pk user_pk request s w).
Qed.

(** Any other role is turned away before the view looks at anything. *)
Lemma submission_review_denied w pk request user_pk user :
  request_user request w = Some (user_pk, user) →
  User.role user ≠ MICAT_REVIEWER →
  submission_review pk request w =
  (redirect "dashboard" None,
   set_flash (flash w ++ [(level_error, "You don't have permission to access this page.")]) w).
Proof.
  intros Huser Hrole. unfold submission_review, micat_reviewer_required.
  rewrite (login_required_run _ _ _ _ Huser).
  apply (role_required_denied _ _ _ _ _ _ Huser). by rewrite list_elem_of_singleton.
Qed.




(** The gate of the review view, for an authenticated actor. *)
Lemma submission_review_gate w pk request user_pk user :
  request_user request w = Some (user_pk, user) →
  submission_review pk request w =
  if bool_decide (User.role user = MICAT_REVIEWER)
  then submission_review_body pk request w
  else (redirect "dashboard" None,
        set_flash (flash w ++
          [(level_error, "You don't have permission to access this page.")]) w).
Proof.
  intros Huser. case_bool_decide as Hrole.
  - unfold submission_review, micat_reviewer_required.
    rewrite (login_required_run _ _ _ _ Huser).
    apply (role_required_run _ _ _ _ _ _ Huser). by apply list_elem_of_singleton.
  - by apply (submission_review_denied _ _ _ user_pk user).
Qed.

(** C2 (as amended). The review view runs exactly for an authenticated
    actor whose role is MICAT_REVIEWER; an actor with role ADMIN or
    MAC_OFFICER is sent to the dashboard with the permission message and
    nothing else changes. *)
Theorem review_permitted_exactly_for_micat_reviewer w pk request user_pk user :
  request_user request w = Some (user_pk, user) →
  submission_review pk request w =
  match User.role user with
  | MICAT_REVIEWER => submission_review_body pk request w
  | ADMIN | MAC_OFFICER =>
      (redirect "dashboard" None,
       set_flash (flash w ++
         [(level_error, "You don't have permission to access this page.")]) w)
  end.
Proof.
  intros Huser. rewrite (submission_review_gate _ _ _ _ _ Huser).
  by destruct (User.role user).
Qed.

Lemma review_permitted_exactly_for_micat_reviewer_witness :
  submission_review 1 admin_approve_request demo_pending =
  (redirect "dashboard" None,
   set_flash (flash demo_pending ++
     [(level_error, "You don't have permission to access this page.")]) demo_pending).
Proof.
  apply (review_permitted_exactly_for_micat_reviewer demo_pending 1
           admin_approve_request 4 (User.mk "ada" ADMIN None true)).
  vm_compute; reflexivity.
Defined.

(** C2, the claim as written fails: user 4 has role ADMIN, posts [approve]
    on the PENDING submission 1, is redirected to the dashboard, and the
    submission stays PENDING. *)
Lemma admin_is_denied_review :
  User.role <$> users demo_pending !! 4 = Some ADMIN ∧
  (submission_review 1 admin_approve_request demo_pending).1 = redirect "dashboard" None ∧
  Submission.status <$>
    submissions (submission_review 1 admin_approve_request demo_pending).2 !! 1 =
  Some PENDING.
Proof. by_evaluation. Qed.




(** ** [submission_create] *)



(** The notification loop: one row per element of the list, in order, and
    nothing else but the clock moves. *)
Lemma for_each_create_notification l title message submission w :
  ∃ ns,
    for_each l (λ r, create_notification r title message submission) w =
    (tt, set_time_reads (length l + time_reads w)
           (set_notifications (notifications w ++ ns) w)) ∧
    Notification.user <$> ns = l ∧
    Forall (notifies title message submission) ns.
Proof.
  revert w. induction l as [|r l IH]; intros w.
  - exists []. destruct w. simpl. by rewrite app_nil_r.
  - simpl. unfold create_notification at 1, timezone_now. run_view.
    edestruct IH as (ns & Heq & Hu & Hf). rewrite Heq. clear Heq.
    exists (Notification.mk r title message submission false
              (time_source w (time_reads w)) :: ns).
    split; [|split].
    + destruct w; unfold set_time_reads, set_notifications; simpl.
      rewrite <- app_assoc. simpl. do 2 f_equal. lia.
    + rewrite fmap_cons. simpl. by rewrite Hu.
    + by constructor.
Qed.








(** ** One audit entry per transition *)




(** The officer without a MAC is turned away. *)
Example officer_without_mac_is_turned_away :
  (submission_create no_mac_request demo_world).1 = redirect "dashboard" None ∧
  submissions (submission_create no_mac_request demo_world).2 = submissions demo_world.
Proof. by_evaluation. Qed.

(** ** [submission_edit] *)




(** The returned submission is PENDING again after the officer's edit. *)
Example edit_resets_returned_to_pending :
  Submission.status <$> submissions demo_returned !! 1 = Some RETURNED ∧
  Submission.status <$>
    submissions (submission_edit 1 edit_request demo_returned).2 !! 1 = Some PENDING.
Proof. by_evaluation. Qed.

(** ** [published_at] over sequences of requests *)

Lemma for_each_messages_add l lvl w :
  for_each l (messages_add lvl) w =
  (tt, set_flash (flash w ++ ((λ text, (lvl, text)) <$> l)) w).
Proof.
  revert w. induction l as [|x l IH]; intros w.
  - destruct w. simpl. by rewrite app_nil_r.
  - simpl. run_view. rewrite IH. destruct w. unfold set_flash. simpl.
    by rewrite <- app_assoc.
Qed.











(** ** Two review requests on one submission *)




Section Step.
Variables (pk : nat) (w0 : World) (s0 : Submission.t).
Variables (request : HttpRequest) (u : nat) (user : User.t) (st : Status) (tag : LogAction).
Variables (u' : nat) (st' : Status).
Hypothesis Huser : request_user request w0 = Some (u, user).
Hypothesis Hrole : User.role user = MICAT_REVIEWER.
Hypothesis Hpost : method request = POST.
Hypothesis Hout : review_outcome (POST_data request !! "action") = Some (st, tag).


End Step.

Section TwoReviews.
Variables (pk : nat) (w : World) (s : Submission.t).
Variables (request1 request2 : HttpRequest).
Variables (u1 u2 : nat) (user1 user2 : User.t).
Variables (st1 st2 : Status) (tag1 tag2 : LogAction).
Hypothesis Hrow : submissions w !! pk = Some s.
Hypothesis Huser1 : request_user request1 w = Some (u1, user1).
Hypothesis Huser2 : request_user request2 w = Some (u2, user2).
Hypothesis Hrole1 : User.role user1 = MICAT_REVIEWER.
Hypothesis Hrole2 : User.role user2 = MICAT_REVIEWER.
Hypothesis Hpost1 : method request1 = POST.
Hypothesis Hpost2 : method request2 = POST.
Hypothesis Hout1 : review_outcome (POST_data request1 !! "action") = Some (st1, tag1).
Hypothesis Hout2 : review_outcome (POST_data request2 !! "action") = Some (st2, tag2).




End TwoReviews.



(** One request alone, its three steps in a row, is the view. *)
Lemma review_steps_are_the_view pk request1 request2 t2 w :
  run_schedule pk request1 request2 [false; false; false] Waiting t2 w =
  (Finished (submission_review pk request1 w).1, t2, (submission_review pk request1 w).2).
Proof.
  simpl. run_view.
  destruct (request_user request1 w) as [[user_pk user]|] eqn:Huser;
    [|by destruct (submission_review pk request1 w)].
  destruct (submissions w !! pk) as [s|] eqn:Hrow;
    [|by destruct (submission_review pk request1 w)].
  case_bool_decide as Hrole; simpl;
    [|by destruct (submission_review pk request1 w)].
  case_bool_decide as Hpost; simpl;
    [|by destruct (submission_review pk request1 w)].
  apply list_elem_of_singleton in Hrole.
  rewrite (submission_review_post _ _ _ _ _ _ Hrow Huser Hrole Hpost). run_view.
  destruct (review_decision pk user_pk request1 s w) as [s1 w1]. by run_view.
Qed.


(** ** The audit log *)

(** The administrator's delete: the row goes, and the log keeps only the
    entries that did not reference it, followed by the entry written for
    the deletion. *)
Lemma submission_delete_cascade w pk s request user_pk user submission_mac :
  submissions w !! pk = Some s →
  request_user request w = Some (user_pk, user) →
  User.role user = ADMIN →
  method request = POST →
  macs w !! Submission.mac s = Some submission_mac →
  let w' := (submission_delete pk request w).2 in
  submissions w' !! pk = None ∧
  ∃ entry,
    activity_logs w' =
      filter (λ l, ActivityLog.submission l ≠ Some pk) (activity_logs w) ++ [entry] ∧
    ActivityLog.submission entry = None.
Proof.
  intros Hrow Huser Hrole Hpost Hmac. cbv zeta.
  unfold submission_delete. rewrite (login_required_run _ _ _ _ Huser).
  unfold submission_delete_body, is_admin. run_view. rewrite Hrow, Huser, Hmac.
  rewrite !bool_decide_eq_true_2 by done. simpl.
  unfold Submission_delete, log_activity, timezone_now. run_view.
  split; [apply lookup_delete_eq|].
  rewrite filter_app, filter_cons_True by done. by eexists.
Qed.

(** Creating, editing and reviewing only ever add to the log. *)
Lemma create_appends_to_log request w :
  activity_logs w `prefix_of` activity_logs (submission_create request w).2.
Proof.
  unfold submission_create, login_required, mac_officer_required, role_required.
  run_view.
  destruct (request_user request w) as [[user_pk user]|] eqn:Huser; [|done].
  rewrite Huser. case_bool_decide; [|done].
  unfold submission_create_body. run_view. rewrite Huser.
  destruct (User.mac user) as [mac_pk|]; [|done].
  destruct (macs w !! mac_pk) as [user_mac|]; [|done].
  case_bool_decide; [|done].
  destruct (truthy (POST_data request !! "title")),
    (truthy (POST_data request !! "description")),
    (truthy (FILES request !! "file")); simpl;
    rewrite ?for_each_messages_add; try done.
  unfold Submission_objects_create, log_activity, timezone_now. run_view.
  edestruct for_each_create_notification as (ns & Heq & _). rewrite Heq. simpl.
  by eexists.
Qed.

Lemma edit_appends_to_log pk request w :
  activity_logs w `prefix_of` activity_logs (submission_edit pk request w).2.
Proof.
  unfold submission_edit, login_required. run_view.
  destruct (request_user request w) as [[user_pk user]|] eqn:Huser; [|done].
  rewrite ?Huser. unfold submission_edit_body. run_view. rewrite Huser.
  destruct (submissions w !! pk) as [s|] eqn:Hrow; [|done].
  destruct (can_be_edited_by s user_pk user); simpl; [|done].
  case_bool_decide; [|done].
  destruct (truthy (POST_data request !! "title")),
    (truthy (POST_data request !! "description")); simpl;
    rewrite ?for_each_messages_add; try done.
  unfold Submission_save, log_activity, timezone_now. run_view. by eexists.
Qed.

Lemma review_appends_to_log pk request w :
  activity_logs w `prefix_of` activity_logs (submission_review pk request w).2.
Proof.
  destruct (request_user request w) as [[user_pk user]|] eqn:Huser;
    [|unfold submission_review; by rewrite login_required_anonymous].
  rewrite (submission_review_gate _ _ _ _ _ Huser).
  case_bool_decide; [|done].
  unfold submission_review_body. run_view. rewrite Huser.
  destruct (submissions w !! pk) as [s|] eqn:Hrow; [|done].
  case_bool_decide; [|done].
  pose proof (review_decision_logs pk user_pk request s w) as (d & c & Hlogs).
  destruct (review_decision pk user_pk request s w) as [s1 w1]. simpl in *.
  rewrite Hlogs. by eexists.
Qed.

(** Every request but a delete leaves the log it found as a prefix of the
    log it leaves. *)
Lemma run_op_appends_to_log op w :
  (∀ pk request, op ≠ op_delete pk request) →
  activity_logs w `prefix_of` activity_logs (run_op op w).2.
Proof.
  intros Hop. destruct op as [request|pk request|pk request|pk request]; simpl.
  - apply create_appends_to_log.
  - apply edit_appends_to_log.
  - by destruct (Hop pk request).
  - apply review_appends_to_log.
Qed.

(** C3, the code at the failing input: the log of [demo_pending] holds the
    SUBMISSION_CREATED entry of submission 1; after the administrator has
    deleted the submission that entry is gone, and the log holds only the
    entry written for the deletion. *)
Theorem submission_delete_removes_audit_entries :
  (ActivityLog.action <$> activity_logs demo_pending = [SUBMISSION_CREATED] ∧
   ActivityLog.submission <$> activity_logs demo_pending = [Some 1]) ∧
  (submission_delete 1 admin_delete_request demo_pending).1 =
    redirect "submission_list" None ∧
  ActivityLog.description <$>
    activity_logs (submission_delete 1 admin_delete_request demo_pending).2 =
  ["Deleted submission: Flood Update from MOH"].
Proof. by_evaluation. Qed.

(** * Further properties *)

Lemma same_tables_refl w : same_tables w w.
Proof. by repeat split. Qed.

Lemma same_tables_flash w v : same_tables w (set_flash v w).
Proof. by repeat split. Qed.

(** *** What each view can do to the tables *)

Lemma submission_create_effect request w :
  let w' := (submission_create request w).2 in
  same_tables w w' ∨
  ∃ user_pk user mac_pk user_mac ns created_at,
    request_user request w = Some (user_pk, user) ∧
    User.role user = MAC_OFFICER ∧
    User.mac user = Some mac_pk ∧
    macs w !! mac_pk = Some user_mac ∧
    users w' = users w ∧ macs w' = macs w ∧ time_source w' = time_source w ∧
    submission_seq w' = S (submission_seq w) ∧
    submissions w' =
      <[submission_seq w :=
          Submission.mk (default "" (POST_data request !! "title"))
            (POST_data request !! "content_type")
            (default "" (POST_data request !! "description"))
            (default "" (POST_data request !! "tags"))
            (default "" (FILES request !! "file")) mac_pk (Some user_pk) None
            PENDING (is_on (POST_data request !! "is_confidential")) false
            "MEDIUM" "" "" (time_source w (time_reads w)) None None None
            (time_source w (S (time_reads w)))]> (submissions w) ∧
    activity_logs w' =
      activity_logs w ++
      [ActivityLog.mk (Some user_pk) SUBMISSION_CREATED (Some (submission_seq w))
         ("Created submission: " +:+ default "" (POST_data request !! "title"))
         (client_ip request) created_at] ∧
    notifications w' = notifications w ++ ns ∧
    Notification.user <$> ns = active_micat_reviewers w ∧
    Forall (notifies "New Submission"
              (MAC.acronym user_mac +:+ " submitted: " +:+
               default "" (POST_data request !! "title"))
              (Some (submission_seq w))) ns.
Proof.
  cbv zeta.
  unfold submission_create, login_required, mac_officer_required, role_required.
  run_view.
  destruct (request_user request w) as [[user_pk user]|] eqn:Huser; [|by left].
  rewrite Huser. case_bool_decide as Hrole; [|by left].
  apply list_elem_of_singleton in Hrole.
  unfold submission_create_body. run_view. rewrite Huser.
  destruct (User.mac user) as [mac_pk|] eqn:Hmac; [|by left].
  destruct (macs w !! mac_pk) as [user_mac|] eqn:Hm; [|by left].
  case_bool_decide; [|by left].
  destruct (truthy (POST_data request !! "title")),
    (truthy (POST_data request !! "description")),
    (truthy (FILES request !! "file")); simpl;
    rewrite ?for_each_messages_add; try by left.
  unfold Submission_objects_create, log_activity, timezone_now. run_view.
  edestruct for_each_create_notification as (ns & Heq & Hu & Hall).
  rewrite Heq. clear Heq. simpl in *. right.
  eexists user_pk, user, mac_pk, user_mac, ns, _. by repeat split.
Qed.

Lemma submission_edit_effect pk request w :
  let w' := (submission_edit pk request w).2 in
  same_tables w w' ∨
  ∃ s user_pk user s' created_at,
    submissions w !! pk = Some s ∧
    request_user request w = Some (user_pk, user) ∧
    can_be_edited_by s user_pk user = true ∧
    method request = POST ∧
    users w' = users w ∧ macs w' = macs w ∧ time_source w' = time_source w ∧
    submission_seq w' = submission_seq w ∧
    notifications w' = notifications w ∧
    submissions w' = <[pk := s']> (submissions w) ∧
    activity_logs w' =
      activity_logs w ++
      [ActivityLog.mk (Some user_pk) SUBMISSION_UPDATED (Some pk)
         ("Updated submission: " +:+ default "" (POST_data request !! "title"))
         (client_ip request) created_at] ∧
    review_fields_kept s s' ∧
    Submission.status s' =
      (if bool_decide (Submission.status s = RETURNED) then PENDING
       else Submission.status s) ∧
    Submission.title s' = default "" (POST_data request !! "title") ∧
    Submission.description s' = default "" (POST_data request !! "description") ∧
    Submission.content_type s' = POST_data request !! "content_type" ∧
    Submission.tags s' = default "" (POST_data request !! "tags") ∧
    Submission.is_confidential s' = is_on (POST_data request !! "is_confidential") ∧
    Submission.file s' =
      (if truthy (FILES request !! "file") then default "" (FILES request !! "file")
       else Submission.file s).
Proof.
  cbv zeta. unfold submission_edit, login_required. run_view.
  destruct (request_user request w) as [[user_pk user]|] eqn:Huser; [|by left].
  rewrite ?Huser. unfold submission_edit_body. run_view. rewrite Huser.
  destruct (submissions w !! pk) as [s|] eqn:Hrow; [|by left].
  destruct (can_be_edited_by s user_pk user) eqn:Hcan; simpl; [|by left].
  case_bool_decide; [|by left].
  destruct (truthy (POST_data request !! "title")),
    (truthy (POST_data request !! "description")); simpl;
    rewrite ?for_each_messages_add; try by left.
  unfold Submission_save, log_activity, timezone_now. run_view. right.
  destruct (truthy (FILES request !! "file")); case_bool_decide;
    eexists s, user_pk, user, _, _; repeat split; try done; simpl in *;
    first [by rewrite bool_decide_eq_true_2 | by rewrite bool_decide_eq_false_2].
Qed.

Lemma submission_delete_effect pk request w :
  let w' := (submission_delete pk request w).2 in
  same_tables w w' ∨
  ∃ s user_pk user submission_mac created_at,
    submissions w !! pk = Some s ∧
    request_user request w = Some (user_pk, user) ∧
    can_delete s user_pk user = true ∧
    method request = POST ∧
    macs w !! Submission.mac s = Some submission_mac ∧
    users w' = users w ∧ macs w' = macs w ∧ time_source w' = time_source w ∧
    submission_seq w' = submission_seq w ∧
    submissions w' = delete pk (submissions w) ∧
    notifications w' =
      filter (λ n, Notification.submission n ≠ Some pk) (notifications w) ∧
    activity_logs w' =
      filter (λ l, ActivityLog.submission l ≠ Some pk) (activity_logs w) ++
      [ActivityLog.mk (Some user_pk) SUBMISSION_UPDATED None
         ("Deleted submission: " +:+ Submission.title s +:+ " from " +:+
          MAC.acronym submission_mac)
         (client_ip request) created_at].
Proof.
  cbv zeta. unfold submission_delete, login_required. run_view.
  destruct (request_user request w) as [[user_pk user]|] eqn:Huser; [|by left].
  rewrite ?Huser. unfold submission_delete_body. run_view. rewrite Huser.
  destruct (submissions w !! pk) as [s|] eqn:Hrow; [|by left].
  fold (can_delete s user_pk user).
  destruct (can_delete s user_pk user) eqn:Hcan; simpl; [|by left].
  case_bool_decide; [|by left].
  destruct (macs w !! Submission.mac s) as [submission_mac|] eqn:Hmac; [|by left].
  unfold Submission_delete, log_activity, timezone_now. run_view. right.
  eexists s, user_pk, user, submission_mac, _.
  repeat (split; [done|]).
  by rewrite filter_app, filter_cons_True.
Qed.

Lemma review_decision_keeps pk user_pk request s w :
  let r := review_decision pk user_pk request s w in
  content_kept s r.1 ∧
  Submission.is_published r.1 =
    (if bool_decide (POST_data request !! "action" = Some "approve")
     then is_on (POST_data request !! "publish")
     else Submission.is_published s) ∧
  Submission.denial_reason r.1 =
    (if bool_decide (POST_data request !! "action" = Some "deny")
     then default "" (POST_data request !! "denial_reason")
     else Submission.denial_reason s).
Proof. cbv zeta. review_cases; by repeat split. Qed.

Lemma submission_review_effect pk request w :
  let w' := (submission_review pk request w).2 in
  same_tables w w' ∨
  ∃ s user_pk user s' description title message created_at created_at',
    let action := POST_data request !! "action" in
    submissions w !! pk = Some s ∧
    request_user request w = Some (user_pk, user) ∧
    User.role user = MICAT_REVIEWER ∧
    method request = POST ∧
    users w' = users w ∧ macs w' = macs w ∧ time_source w' = time_source w ∧
    submission_seq w' = submission_seq w ∧
    submissions w' = <[pk := s']> (submissions w) ∧
    activity_logs w' =
      activity_logs w ++
      match review_outcome action with
      | Some (_, tag) =>
          [ActivityLog.mk (Some user_pk) tag (Some pk) description
             (client_ip request) created_at]
      | None => []
      end ∧
    notifications w' =
      notifications w ++
      match review_outcome action, Submission.submitted_by s with
      | Some _, Some submitter =>
          [Notification.mk submitter title message (Some pk) false created_at']
      | _, _ => []
      end ∧
    content_kept s s' ∧
    Submission.status s' =
      match review_outcome action with
      | Some (st, _) => st
      | None => Submission.status s
      end ∧
    Submission.reviewed_by s' = Some user_pk ∧
    Submission.reviewed_at s' = Some (time_source w (time_reads w)) ∧
    Submission.reviewer_comments s' =
      default "" (POST_data request !! "reviewer_comments") ∧
    Submission.priority s' = default "MEDIUM" (POST_data request !! "priority") ∧
    Submission.approved_at s' =
      (if bool_decide (action = Some "approve")
       then Some (time_source w (S (time_reads w)))
       else Submission.approved_at s) ∧
    Submission.published_at s' =
      (if bool_decide (action = Some "approve") && is_on (POST_data request !! "publish")
       then Some (time_source w (S (S (time_reads w))))
       else Submission.published_at s) ∧
    Submission.is_published s' =
      (if bool_decide (action = Some "approve")
       then is_on (POST_data request !! "publish")
       else Submission.is_published s) ∧
    Submission.denial_reason s' =
      (if bool_decide (action = Some "deny")
       then default "" (POST_data request !! "denial_reason")
       else Submission.denial_reason s).
Proof.
  cbv zeta.
  destruct (request_user request w) as [[user_pk user]|] eqn:Huser;
    [|left; unfold submission_review; by rewrite login_required_anonymous].
  rewrite (submission_review_gate _ _ _ _ _ Huser).
  case_bool_decide as Hrole; [|by left].
  unfold submission_review_body. run_view. rewrite Huser.
  destruct (submissions w !! pk) as [s|] eqn:Hrow; [|by left].
  case_bool_decide as Hpost; [|by left].
  pose proof (review_decision_tables pk user_pk request s w) as (Hus & Hms & Hsub & Hseq & Hts).
  pose proof (review_decision_status pk user_pk request s w) as Hst.
  pose proof (review_decision_reviewer pk user_pk request s w) as (Hby & Hat & Hcm & Hpr).
  pose proof (review_decision_logs pk user_pk request s w) as (d & c & Hlogs).
  pose proof (review_decision_notifications pk user_pk request s w) as (ti & me & c' & Hnot).
  pose proof (review_decision_approved_at pk user_pk request s w) as Hap.
  pose proof (review_decision_published_at pk user_pk request s w) as Hpu.
  pose proof (review_decision_keeps pk user_pk request s w) as (Hkeep & Hip & Hdr).
  destruct (review_decision pk user_pk request s w) as [s1 w1]. simpl in *.
  right. eexists s, user_pk, user, _, d, ti, me, c, c'.
  rewrite Hsub, Hlogs, Hnot.
  repeat (split; [done|]). by rewrite Hts.
Qed.

(** *** Invariants over sequences of requests *)

Lemma run_ops_invariant (P : World → Prop) :
  (∀ op w, P w → P (run_op op w).2) →
  ∀ ops w, P w → P (run_ops ops w).
Proof.
  intros Hstep ops. induction ops as [|op ops IH]; intros w Hw; simpl; [done|].
  by apply IH, Hstep.
Qed.

Lemma run_op_users_macs op w :
  users (run_op op w).2 = users w ∧ macs (run_op op w).2 = macs w.
Proof.
  destruct op as [request|pk request|pk request|pk request]; simpl.
  - destruct (submission_create_effect request w) as [H|H]; [by destruct H as (?&?&?)|].
    by destruct H as (?&?&?&?&?&?&?&?&?&?&?&?&?).
  - destruct (submission_edit_effect pk request w) as [H|H]; [by destruct H as (?&?&?)|].
    by destruct H as (?&?&?&?&?&?&?&?&?&?&?&?).
  - destruct (submission_delete_effect pk request w) as [H|H]; [by destruct H as (?&?&?)|].
    by destruct H as (?&?&?&?&?&?&?&?&?&?&?&?&?).
  - destruct (submission_review_effect pk request w) as [H|H]; [by destruct H as (?&?&?)|].
    by destruct H as (?&?&?&?&?&?&?&?&?&?&?&?&?&?&?&?).
Qed.

(** X1. No sequence of submission requests changes a user or a MAC. *)
Theorem submission_requests_leave_users_and_macs ops w :
  users (run_ops ops w) = users w ∧ macs (run_ops ops w) = macs w.
Proof.
  apply (run_ops_invariant (λ w', users w' = users w ∧ macs w' = macs w)); [|done].
  intros op w' [Hu Hm]. destruct (run_op_users_macs op w') as [-> ->]. done.
Qed.

Lemma run_op_keys_below_sequence op w :
  keys_below_sequence w → keys_below_sequence (run_op op w).2.
Proof.
  intros Hw. destruct op as [request|pk request|pk request|pk request]; simpl.
  - destruct (submission_create_effect request w) as [H|H].
    + destruct H as (_ & _ & Hs & Hq & _). intros k. rewrite Hs, Hq. apply Hw.
    + destruct H as (?&?&?&?&?&?&_&_&_&_&_&_&_&Hq&Hs&_).
      intros k Hk. rewrite Hs, Hq in *. rewrite lookup_insert_ne by lia. apply Hw. lia.
  - destruct (submission_edit_effect pk request w) as [H|H].
    + destruct H as (_ & _ & Hs & Hq & _). intros k. rewrite Hs, Hq. apply Hw.
    + destruct H as (s&?&?&?&?&Hrow&_&_&_&_&_&_&Hq&_&Hs&_).
      intros k Hk. rewrite Hs, Hq in *. rewrite lookup_insert_ne; [by apply Hw|].
      intros ->. rewrite Hw in Hrow; done.
  - destruct (submission_delete_effect pk request w) as [H|H].
    + destruct H as (_ & _ & Hs & Hq & _). intros k. rewrite Hs, Hq. apply Hw.
    + destruct H as (s&?&?&?&?&Hrow&_&_&_&_&_&_&_&Hq&Hs&_).
      intros k Hk. rewrite Hs, Hq in *. rewrite lookup_delete. case_decide; [done|by apply Hw].
  - destruct (submission_review_effect pk request w) as [H|H].
    + destruct H as (_ & _ & Hs & Hq & _). intros k. rewrite Hs, Hq. apply Hw.
    + destruct H as (s&?&?&?&?&?&?&?&?&Hrow&_&_&_&_&_&_&Hq&Hs&_).
      intros k Hk. rewrite Hs, Hq in *. rewrite lookup_insert_ne; [by apply Hw|].
      intros ->. rewrite Hw in Hrow; done.
Qed.




Lemma run_op_references_resolve op w :
  references_resolve w → references_resolve (run_op op w).2.
Proof.
  intros [Hn He].
  destruct op as [request|pk request|pk request|pk request]; simpl.
  - destruct (submission_create_effect request w) as [H|H].
    + destruct H as (_ & _ & Hs & _ & Hl & Hno & _). split; rewrite ?Hs, ?Hl, ?Hno; done.
    + destruct H as (?&?&?&?&ns&?&_&_&_&_&_&_&_&_&Hs&Hl&Hno&_&Hall).
      split; intros y k; rewrite ?Hl, ?Hno, Hs, elem_of_app, lookup_insert;
        intros [Hin|Hin] Hk; case_decide; try done; eauto.
      * rewrite Forall_forall in Hall. destruct (Hall _ Hin) as (_&_&?&_). congruence.
      * apply list_elem_of_singleton in Hin. subst y. simpl in Hk. congruence.
  - destruct (submission_edit_effect pk request w) as [H|H].
    + destruct H as (_ & _ & Hs & _ & Hl & Hno & _). split; rewrite ?Hs, ?Hl, ?Hno; done.
    + destruct H as (s&?&?&s'&?&Hrow&_&_&_&_&_&_&_&Hno&Hs&Hl&_).
      split; intros y k; rewrite ?Hl, ?Hno, Hs, ?elem_of_app, lookup_insert;
        intros Hin Hk; case_decide; try done; eauto.
      destruct Hin as [Hin|Hin]; [eauto|].
      apply list_elem_of_singleton in Hin. subst y. simpl in Hk. congruence.
  - destruct (submission_delete_effect pk request w) as [H|H].
    + destruct H as (_ & _ & Hs & _ & Hl & Hno & _). split; rewrite ?Hs, ?Hl, ?Hno; done.
    + destruct H as (s&?&?&?&?&_&_&_&_&_&_&_&_&_&Hs&Hno&Hl).
      split; intros y k; rewrite ?Hl, ?Hno, Hs, ?elem_of_app, ?list_elem_of_filter,
        lookup_delete; intros Hin Hk; case_decide; subst.
      * by destruct Hin.
      * destruct Hin; eauto.
      * destruct Hin as [[? ?]|Hin]; [done|].
        apply list_elem_of_singleton in Hin. by subst y.
      * destruct Hin as [[? ?]|Hin]; [eauto|].
        apply list_elem_of_singleton in Hin. by subst y.
  - destruct (submission_review_effect pk request w) as [H|H].
    + destruct H as (_ & _ & Hs & _ & Hl & Hno & _). split; rewrite ?Hs, ?Hl, ?Hno; done.
    + destruct H as (s&?&?&s'&?&?&?&?&?&Hrow&_&_&_&_&_&_&_&Hs&Hl&Hno&_).
      split; intros y k; rewrite ?Hl, ?Hno, Hs, ?elem_of_app, lookup_insert;
        intros Hin Hk; case_decide; try done; destruct Hin as [Hin|Hin]; eauto.
      * destruct (review_outcome _) as [[? ?]|], (Submission.submitted_by s);
          rewrite ?elem_of_nil in Hin; try done.
        apply list_elem_of_singleton in Hin. subst y. simpl in Hk. congruence.
      * destruct (review_outcome _) as [[? ?]|]; rewrite ?elem_of_nil in Hin; try done.
        apply list_elem_of_singleton in Hin. subst y. simpl in Hk. congruence.
Qed.


(** X2. Whatever one of the four submission views writes to the audit log,
    it writes in the name of the user of the request: an entry of the log
    after the request was in the log before, or names the actor. *)
Theorem audit_entries_name_the_actor op w e :
  e ∈ activity_logs (run_op op w).2 →
  e ∈ activity_logs w ∨
  ∃ user_pk user,
    request_user (op_request op) w = Some (user_pk, user) ∧
    ActivityLog.user e = Some user_pk.
Proof.
  destruct op as [request|pk request|pk request|pk request]; simpl.
  - destruct (submission_create_effect request w) as [H|H].
    + destruct H as (_ & _ & _ & _ & -> & _). by left.
    + destruct H as (u&?&?&?&?&?&Hu&_&_&_&_&_&_&_&_&->&_).
      rewrite elem_of_app, list_elem_of_singleton. intros [? | ->]; [by left|right]. eauto.
  - destruct (submission_edit_effect pk request w) as [H|H].
    + destruct H as (_ & _ & _ & _ & -> & _). by left.
    + destruct H as (s&?&?&s'&?&_&Hu&_&_&_&_&_&_&_&_&->&_).
      rewrite elem_of_app, list_elem_of_singleton. intros [? | ->]; [by left|right]. eauto.
  - destruct (submission_delete_effect pk request w) as [H|H].
    + destruct H as (_ & _ & _ & _ & -> & _). by left.
    + destruct H as (s&?&?&?&?&_&Hu&_&_&_&_&_&_&_&_&_&->).
      rewrite elem_of_app, list_elem_of_filter, list_elem_of_singleton.
      intros [[_ ?] | ->]; [by left|right]. eauto.
  - destruct (submission_review_effect pk request w) as [H|H].
    + destruct H as (_ & _ & _ & _ & -> & _). by left.
    + destruct H as (s&?&?&s'&?&?&?&?&?&_&Hu&_&_&_&_&_&_&_&->&_).
      rewrite elem_of_app. intros [?|Hin]; [by left|right].
      destruct (review_outcome _) as [[? ?]|]; rewrite ?elem_of_nil in Hin; [|done].
      apply list_elem_of_singleton in Hin. subst e. eauto.
Qed.


(** X4. Creating a submission never replaces a row: with the keys below the
    sequence, every row is after [submission_create] what it was before,
    whatever the request. *)
Theorem create_never_overwrites request w k s :
  keys_below_sequence w →
  submissions w !! k = Some s →
  submissions (submission_create request w).2 !! k = Some s.
Proof.
  intros Hw Hrow. destruct (submission_create_effect request w) as [H|H].
  - destruct H as (_ & _ & -> & _). done.
  - destruct H as (?&?&?&?&?&?&_&_&_&_&_&_&_&_&->&_).
    rewrite lookup_insert_ne; [done|]. intros <-.
    rewrite Hw in Hrow; done.
Qed.

(** No dangling references: if every submission named by a
    notification or an audit entry exists, the same holds after any
    sequence of create, edit, delete and review requests. *)
Lemma references_always_resolve ops w :
  references_resolve w → references_resolve (run_ops ops w).
Proof. apply run_ops_invariant, run_op_references_resolve. Qed.



(** X7. An edit request, whoever sends it and whatever it carries, leaves
    the owner, the MAC and every review field of every row as they were;
    the only change of status it can make is from RETURNED to PENDING. *)
Theorem edit_keeps_review_fields pk request w k s' :
  submissions (submission_edit pk request w).2 !! k = Some s' →
  ∃ s, submissions w !! k = Some s ∧
    review_fields_kept s s' ∧
    (Submission.status s' = Submission.status s ∨
     (Submission.status s = RETURNED ∧ Submission.status s' = PENDING)).
Proof.
  assert (Hrefl : ∀ s, review_fields_kept s s) by (by repeat split).
  destruct (submission_edit_effect pk request w) as [H|H].
  - destruct H as (_ & _ & -> & _). intros ?. exists s'. split; [done|]. split; [apply Hrefl|by left].
  - destruct H as (s&?&?&s1&?&Hrow&_&_&_&_&_&_&_&_&->&_&Hkeep&Hst&_).
    rewrite lookup_insert. destruct (decide (pk = k)) as [<-|Hne];
      [|intros ?; exists s'; split; [done|]; split; [apply Hrefl|by left]].
    intros [= <-]. exists s. split; [done|]. split; [done|].
    rewrite Hst. case_bool_decide; auto.
Qed.

(** X8. A review request, whoever sends it and whatever it carries, leaves
    the content, the owner and the MAC of every row as they were. *)
Theorem review_keeps_content pk request w k s' :
  submissions (submission_review pk request w).2 !! k = Some s' →
  ∃ s, submissions w !! k = Some s ∧ content_kept s s'.
Proof.
  assert (Hrefl : ∀ s, content_kept s s) by (by repeat split).
  destruct (submission_review_effect pk request w) as [H|H].
  - destruct H as (_ & _ & -> & _). intros ?. exists s'. split; [done|apply Hrefl].
  - destruct H as (s&?&?&s1&?&?&?&?&?&Hrow&_&_&_&_&_&_&_&->&_&_&Hkeep&_).
    rewrite lookup_insert. destruct (decide (pk = k)) as [<-|Hne];
      [|intros ?; exists s'; split; [done|apply Hrefl]].
    intros [= <-]. eauto.
Qed.

(** *** Single requests *)



(** X10. An incomplete create form stores nothing: the officer gets the
    form again with one error message per missing field, in the order
    title, description, file. *)
Theorem create_rejects_incomplete_form w request user_pk user mac_pk user_mac :
  request_user request w = Some (user_pk, user) →
  User.role user = MAC_OFFICER →
  User.mac user = Some mac_pk →
  macs w !! mac_pk = Some user_mac →
  method request = POST →
  create_errors request ≠ [] →
  submission_create request w =
  (render "core/submission_create.html",
   set_flash (flash w ++ error_messages (create_errors request)) w).
Proof.
  intros Huser Hrole Hmac Hm Hpost. unfold create_errors, error_messages.
  unfold submission_create, mac_officer_required.
  rewrite (login_required_run _ _ _ _ Huser).
  rewrite (role_required_run _ _ _ _ _ _ Huser) by (by apply list_elem_of_singleton).
  unfold submission_create_body. run_view. rewrite Huser, Hmac, Hm.
  rewrite bool_decide_eq_true_2 by done.
  destruct (truthy (POST_data request !! "title")),
    (truthy (POST_data request !! "description")),
    (truthy (FILES request !! "file")); simpl; intros Hne; try done;
    unfold set_flash; simpl; by rewrite <- ?app_assoc.
Qed.

(** X11. An incomplete edit form stores nothing: the form is shown again
    with one error message per missing field (title, description); a
    missing file is no error. *)
Theorem edit_rejects_incomplete_form w pk s request user_pk user :
  submissions w !! pk = Some s →
  request_user request w = Some (user_pk, user) →
  can_be_edited_by s user_pk user = true →
  method request = POST →
  edit_errors request ≠ [] →
  submission_edit pk request w =
  (render "core/submission_edit.html",
   set_flash (flash w ++ error_messages (edit_errors request)) w).
Proof.
  intros Hrow Huser Hcan Hpost. unfold edit_errors, error_messages.
  unfold submission_edit. rewrite (login_required_run _ _ _ _ Huser).
  unfold submission_edit_body. run_view. rewrite Hrow, Huser, Hcan. simpl.
  rewrite bool_decide_eq_true_2 by done.
  destruct (truthy (POST_data request !! "title")),
    (truthy (POST_data request !! "description")); simpl; intros Hne; try done;
    unfold set_flash; simpl; by rewrite <- ?app_assoc.
Qed.

(** X12. A primary key that names no submission: edit and delete answer
    404 to any logged-in user, before any permission is looked at; review
    answers 404 to a reviewer, but sends any other role to the dashboard
    with the permission message, the role gate coming first. *)
Theorem missing_submission_is_not_found w pk request user_pk user :
  submissions w !! pk = None →
  request_user request w = Some (user_pk, user) →
  submission_edit pk request w = (Http404, w) ∧
  submission_delete pk request w = (Http404, w) ∧
  submission_review pk request w =
    if bool_decide (User.role user = MICAT_REVIEWER) then (Http404, w)
    else (redirect "dashboard" None,
          set_flash (flash w ++
            [(level_error, "You don't have permission to access this page.")]) w).
Proof.
  intros Hrow Huser. repeat split.
  - unfold submission_edit. rewrite (login_required_run _ _ _ _ Huser).
    unfold submission_edit_body. run_view. by rewrite Hrow.
  - unfold submission_delete. rewrite (login_required_run _ _ _ _ Huser).
    unfold submission_delete_body. run_view. by rewrite Hrow.
  - rewrite (submission_review_gate _ _ _ _ _ Huser). case_bool_decide; [|done].
    unfold submission_review_body. run_view. by rewrite Hrow.
Qed.

(** X13. Who may delete: a POST to [submission_delete] removes the row, and
    with it every notification that names it, exactly when the actor is an
    ADMIN, or is the submitter and the status is PENDING; any other actor
    is sent back to the detail page and no table changes. *)
Theorem delete_is_permitted_exactly w pk s request user_pk user submission_mac :
  submissions w !! pk = Some s →
  request_user request w = Some (user_pk, user) →
  macs w !! Submission.mac s = Some submission_mac →
  method request = POST →
  let r := submission_delete pk request w in
  if bool_decide (User.role user = ADMIN ∨
                  (Submission.submitted_by s = Some user_pk ∧
                   Submission.status s = PENDING))
  then r.1 = redirect "submission_list" None ∧
       submissions r.2 = delete pk (submissions w) ∧
       Forall (λ n, Notification.submission n ≠ Some pk) (notifications r.2)
  else r.1 = redirect "submission_detail" (Some pk) ∧ same_tables w r.2.
Proof.
  intros Hrow Huser Hmac Hpost. cbv zeta.
  unfold submission_delete. rewrite (login_required_run _ _ _ _ Huser).
  unfold submission_delete_body, is_admin. run_view. rewrite Hrow, Huser.
  case_bool_decide as Hallowed.
  - assert ((if bool_decide (User.role user = ADMIN) then true
             else if bool_decide (Submission.submitted_by s = Some user_pk)
                     && bool_decide (Submission.status s = PENDING)
             then true else false) = true) as ->.
    { destruct Hallowed as [?|[? ?]]; repeat case_bool_decide; simpl; done. }
    simpl. rewrite bool_decide_eq_true_2 by done. rewrite Hmac.
    unfold Submission_delete, log_activity, timezone_now. run_view.
    split; [done|]. split; [done|].
    apply Forall_forall. intros n Hn. by apply list_elem_of_filter in Hn as [? _].
  - assert ((if bool_decide (User.role user = ADMIN) then true
             else if bool_decide (Submission.submitted_by s = Some user_pk)
                     && bool_decide (Submission.status s = PENDING)
             then true else false) = false) as ->.
    { repeat case_bool_decide; simpl; try done; destruct Hallowed; auto. }
    simpl. done.
Qed.


(** *** The example installation *)

Lemma demo_world_keys : keys_below_sequence demo_world.
Proof. intros k _. apply lookup_empty. Qed.

Lemma demo_world_references : references_resolve demo_world.
Proof. split; intros ? ? Hin; by apply elem_of_nil in Hin. Qed.



Lemma create_never_overwrites_witness :
  submissions (submission_create inactive_mac_request demo_pending).2 !! 1 =
  Some (stored demo_pending 1).
Proof.
  apply (create_never_overwrites inactive_mac_request demo_pending 1
           (stored demo_pending 1)).
  - apply (run_op_keys_below_sequence (op_create flood_update) demo_world).
    apply demo_world_keys.
  - vm_compute; reflexivity.
Defined.


Lemma audit_entries_name_the_actor_witness :
  flood_update_entry ∈ activity_logs demo_world ∨
  ∃ user_pk user,
    request_user flood_update demo_world = Some (user_pk, user) ∧
    ActivityLog.user flood_update_entry = Some user_pk.
Proof.
  apply (audit_entries_name_the_actor (op_create flood_update) demo_world
           flood_update_entry).
  vm_compute. apply list_elem_of_here.
Defined.


Lemma edit_keeps_review_fields_witness :
  ∃ s, submissions demo_returned !! 1 = Some s ∧
    review_fields_kept s (stored (submission_edit 1 edit_request demo_returned).2 1) ∧
    (Submission.status (stored (submission_edit 1 edit_request demo_returned).2 1) =
       Submission.status s ∨
     (Submission.status s = RETURNED ∧
      Submission.status (stored (submission_edit 1 edit_request demo_returned).2 1) =
        PENDING)).
Proof.
  apply (edit_keeps_review_fields 1 edit_request demo_returned 1).
  vm_compute; reflexivity.
Defined.

Lemma review_keeps_content_witness :
  ∃ s, submissions demo_pending !! 1 = Some s ∧
    content_kept s (stored (submission_review 1 publish_request demo_pending).2 1).
Proof.
  apply (review_keeps_content 1 publish_request demo_pending 1).
  vm_compute; reflexivity.
Defined.

Lemma create_rejects_incomplete_form_witness :
  submission_create incomplete_create_request demo_world =
  (render "core/submission_create.html",
   set_flash (flash demo_world ++
     error_messages (create_errors incomplete_create_request)) demo_world).
Proof.
  apply (create_rejects_incomplete_form demo_world incomplete_create_request 1
           (User.mk "olu" MAC_OFFICER (Some 1) true) 1
           (MAC.mk "Ministry of Health" "MOH" true));
    try (vm_compute; reflexivity).
  vm_compute. discriminate.
Defined.

Lemma edit_rejects_incomplete_form_witness :
  submission_edit 1 incomplete_edit_request demo_pending =
  (render "core/submission_edit.html",
   set_flash (flash demo_pending ++
     error_messages (edit_errors incomplete_edit_request)) demo_pending).
Proof.
  apply (edit_rejects_incomplete_form demo_pending 1 (stored demo_pending 1)
           incomplete_edit_request 1 (User.mk "olu" MAC_OFFICER (Some 1) true));
    try (vm_compute; reflexivity).
  vm_compute. discriminate.
Defined.

Lemma missing_submission_is_not_found_witness :
  submission_edit 9 deny_request demo_pending = (Http404, demo_pending) ∧
  submission_delete 9 deny_request demo_pending = (Http404, demo_pending) ∧
  submission_review 9 deny_request demo_pending =
    if bool_decide (MICAT_REVIEWER = MICAT_REVIEWER) then (Http404, demo_pending)
    else (redirect "dashboard" None,
          set_flash (flash demo_pending ++
            [(level_error, "You don't have permission to access this page.")])
            demo_pending).
Proof.
  apply (missing_submission_is_not_found demo_pending 9 deny_request 2
           (User.mk "rita" MICAT_REVIEWER None true));
    vm_compute; reflexivity.
Defined.

Lemma delete_is_permitted_exactly_witness :
  let r := submission_delete 1 officer_delete_request demo_pending in
  r.1 = redirect "submission_list" None ∧
  submissions r.2 = delete 1 (submissions demo_pending) ∧
  Forall (λ n, Notification.submission n ≠ Some 1) (notifications r.2).
Proof.
  apply (delete_is_permitted_exactly demo_pending 1 (stored demo_pending 1)
           officer_delete_request 1 (User.mk "olu" MAC_OFFICER (Some 1) true)
           (MAC.mk "Ministry of Health" "MOH" true));
    vm_compute; reflexivity.
Defined.


(** *** Accounts and MACs *)

Lemma user_delete_effect pk request w :
  let w' := (user_delete pk request w).2 in
  same_tables w w' ∨
  ∃ user admin_pk admin created_at,
    users w !! pk = Some user ∧
    request_user request w = Some (admin_pk, admin) ∧
    User.role admin = ADMIN ∧ admin_pk ≠ pk ∧ method request = POST ∧
    users w' = delete pk (users w) ∧ macs w' = macs w ∧
    time_source w' = time_source w ∧ submission_seq w' = submission_seq w ∧
    submissions w' = Submission_forget_user pk <$> submissions w ∧
    activity_logs w' =
      (ActivityLog_forget_user pk <$> activity_logs w) ++
      [ActivityLog.mk (Some admin_pk) USER_UPDATED None
         ("Deleted user: " +:+ User.username user) (client_ip request) created_at] ∧
    notifications w' = filter (λ n, Notification.user n ≠ pk) (notifications w).
Proof.
  cbv zeta. unfold user_delete, login_required, admin_required, role_required.
  run_view.
  destruct (request_user request w) as [[admin_pk admin]|] eqn:Huser; [|by left].
  rewrite Huser. case_bool_decide as Hrole; [|by left].
  apply list_elem_of_singleton in Hrole.
  unfold user_delete_body. run_view. rewrite Huser.
  destruct (users w !! pk) as [user|] eqn:Hrow; [|by left].
  case_bool_decide as Hself; [by left|].
  case_bool_decide; [|by left].
  unfold User_delete, log_activity, timezone_now. run_view. right.
  eexists user, admin_pk, admin, _.
  repeat (split; [done|]). split; [|done].
  rewrite fmap_app. simpl. unfold ActivityLog_forget_user at 2, set_null. simpl.
  rewrite bool_decide_eq_false_2; [done|congruence].
Qed.

Lemma mac_delete_effect pk request w :
  let w' := (mac_delete pk request w).2 in
  same_tables w w' ∨
  ∃ mac admin_pk admin created_at,
    macs w !! pk = Some mac ∧
    request_user request w = Some (admin_pk, admin) ∧
    User.role admin = ADMIN ∧ method request = POST ∧
    macs w' = delete pk (macs w) ∧
    users w' = User_forget_mac pk <$> users w ∧
    time_source w' = time_source w ∧ submission_seq w' = submission_seq w ∧
    submissions w' = filter (λ kv, Submission.mac kv.2 ≠ pk) (submissions w) ∧
    activity_logs w' =
      filter (λ l, mac_of_submission w (ActivityLog.submission l) ≠ Some pk)
             (activity_logs w) ++
      [ActivityLog.mk (Some admin_pk) MAC_UPDATED None
         ("Deleted MAC: " +:+ MAC.acronym mac +:+ " (" +:+
          pretty (MAC_users_count pk w) +:+ " users, " +:+
          pretty (MAC_submissions_count pk w) +:+ " submissions)")
         (client_ip request) created_at] ∧
    notifications w' =
      filter (λ n, mac_of_submission w (Notification.submission n) ≠ Some pk)
             (notifications w).
Proof.
  cbv zeta. unfold mac_delete, login_required, admin_required, role_required.
  run_view.
  destruct (request_user request w) as [[admin_pk admin]|] eqn:Huser; [|by left].
  rewrite Huser. case_bool_decide as Hrole; [|by left].
  apply list_elem_of_singleton in Hrole.
  unfold mac_delete_body. run_view. rewrite Huser.
  destruct (macs w !! pk) as [mac|] eqn:Hrow; [|by left].
  case_bool_decide; [|by left].
  unfold MAC_delete, log_activity, timezone_now. run_view. right.
  eexists mac, admin_pk, admin, _.
  repeat (split; [done|]). split; [|done].
  by rewrite filter_app, filter_cons_True.
Qed.

Lemma request_user_Some request w pk u :
  request_user request w = Some (pk, u) →
  session_user request = Some pk ∧ users w !! pk = Some u.
Proof.
  unfold request_user. destruct (session_user request) as [k|]; simpl; [|done].
  destruct (users w !! k) eqn:Hk; simpl; [|done]. intros [= <- <-]. done.
Qed.

Lemma active_micat_reviewers_exist w k :
  k ∈ active_micat_reviewers w → is_Some (users w !! k).
Proof.
  unfold active_micat_reviewers. intros Hk.
  apply list_elem_of_fmap in Hk as ([k' u] & -> & Hin).
  apply list_elem_of_filter in Hin as [_ Hin].
  apply elem_of_map_to_list in Hin. by eexists.
Qed.

Lemma foreign_keys_resolve_same_tables w w' :
  same_tables w w' → foreign_keys_resolve w → foreign_keys_resolve w'.
Proof.
  intros (Hu & Hm & Hs & _ & Hl & Hn & _). unfold foreign_keys_resolve.
  by rewrite Hu, Hm, Hs, Hl, Hn.
Qed.

Lemma submission_create_foreign_keys request w :
  foreign_keys_resolve w → foreign_keys_resolve (submission_create request w).2.
Proof.
  intros Hw. destruct (submission_create_effect request w) as [H|H];
    [by eapply foreign_keys_resolve_same_tables|].
  destruct H as (user_pk & user & mac_pk & user_mac & ns & created_at & Huser & _ & _ &
    Hmac & Hu & Hm & _ & _ & Hs & Hl & Hn & Hns & Hall).
  apply request_user_Some in Huser as [_ Huser].
  destruct Hw as (Wu & Ws & Wl & Wn). unfold foreign_keys_resolve.
  rewrite Hu, Hm, Hs, Hl, Hn. split; [done|]. split; [|split].
  - intros k s. rewrite lookup_insert. case_decide; [|apply Ws].
    intros [= <-]. simpl. split; [by eexists|]. split; [|done].
    intros u [= <-]. by eexists.
  - intros e [He|He]%elem_of_app.
    + destruct (Wl e He) as [? Hk]. split; [done|].
      intros k Hek. rewrite lookup_insert. case_decide; [by eexists|by apply Hk].
    + apply list_elem_of_singleton in He as ->. simpl. split.
      * intros u [= <-]. by eexists.
      * intros k [= <-]. rewrite lookup_insert. case_decide; [by eexists|done].
  - intros n [Hin|Hin]%elem_of_app.
    + destruct (Wn n Hin) as [? Hk]. split; [done|].
      intros k Hnk. rewrite lookup_insert. case_decide; [by eexists|by apply Hk].
    + split.
      * apply active_micat_reviewers_exist. rewrite <- Hns.
        apply list_elem_of_fmap. by exists n.
      * intros k Hnk. rewrite lookup_insert. case_decide; [by eexists|].
        rewrite Forall_forall in Hall. destruct (Hall n Hin) as (_ & _ & Hk & _).
        congruence.
Qed.

Lemma submission_edit_foreign_keys pk request w :
  foreign_keys_resolve w → foreign_keys_resolve (submission_edit pk request w).2.
Proof.
  intros Hw. destruct (submission_edit_effect pk request w) as [H|H];
    [by eapply foreign_keys_resolve_same_tables|].
  destruct H as (s & user_pk & user & s' & created_at & Hrow & Huser & _ & _ &
    Hu & Hm & _ & _ & Hn & Hs & Hl & Hkeep & _).
  apply request_user_Some in Huser as [_ Huser].
  destruct Hkeep as (Kmac & Kby & _ & Krev & _).
  destruct Hw as (Wu & Ws & Wl & Wn). unfold foreign_keys_resolve.
  rewrite Hu, Hm, Hs, Hl, Hn. split; [done|]. split; [|split].
  - intros k s0. rewrite lookup_insert. case_decide; [|apply Ws].
    intros [= <-]. rewrite Kmac, Kby, Krev. by apply (Ws pk).
  - intros e [He|He]%elem_of_app.
    + destruct (Wl e He) as [? Hk]. split; [done|].
      intros k Hek. rewrite lookup_insert. case_decide; [by eexists|by apply Hk].
    + apply list_elem_of_singleton in He as ->. simpl. split.
      * intros u [= <-]. by eexists.
      * intros k [= <-]. rewrite lookup_insert. case_decide; [by eexists|done].
  - intros n Hin. destruct (Wn n Hin) as [? Hk]. split; [done|].
    intros k Hnk. rewrite lookup_insert. case_decide; [by eexists|by apply Hk].
Qed.

Lemma submission_delete_foreign_keys pk request w :
  foreign_keys_resolve w → foreign_keys_resolve (submission_delete pk request w).2.
Proof.
  intros Hw. destruct (submission_delete_effect pk request w) as [H|H];
    [by eapply foreign_keys_resolve_same_tables|].
  destruct H as (s & user_pk & user & submission_mac & created_at & Hrow & Huser & _ & _ &
    _ & Hu & Hm & _ & _ & Hs & Hn & Hl).
  apply request_user_Some in Huser as [_ Huser].
  destruct Hw as (Wu & Ws & Wl & Wn). unfold foreign_keys_resolve.
  rewrite Hu, Hm, Hs, Hl, Hn. split; [done|]. split; [|split].
  - intros k s0 [_ Hk]%lookup_delete_Some. by apply (Ws k).
  - intros e [He|He]%elem_of_app.
    + apply list_elem_of_filter in He as [Hne He].
      destruct (Wl e He) as [? Hk]. split; [done|].
      intros k Hek. rewrite lookup_delete_ne by congruence. by apply Hk.
    + apply list_elem_of_singleton in He as ->. simpl. split; [|done].
      intros u [= <-]. by eexists.
  - intros n Hin. apply list_elem_of_filter in Hin as [Hne Hin].
    destruct (Wn n Hin) as [? Hk]. split; [done|].
    intros k Hnk. rewrite lookup_delete_ne by congruence. by apply Hk.
Qed.

Lemma submission_review_foreign_keys pk request w :
  foreign_keys_resolve w → foreign_keys_resolve (submission_review pk request w).2.
Proof.
  intros Hw. destruct (submission_review_effect pk request w) as [H|H];
    [by eapply foreign_keys_resolve_same_tables|].
  destruct H as (s & user_pk & user & s' & description & title & message & created_at &
    created_at' & Hrow & Huser & _ & _ & Hu & Hm & _ & _ & Hs & Hl & Hn & Hkeep & _ &
    Hby & _).
  apply request_user_Some in Huser as [_ Huser].
  destruct Hkeep as (_ & _ & _ & _ & _ & _ & Kmac & Kby & _).
  destruct Hw as (Wu & Ws & Wl & Wn). unfold foreign_keys_resolve.
  rewrite Hu, Hm, Hs, Hl, Hn. split; [done|]. split; [|split].
  - intros k s0. rewrite lookup_insert. case_decide; [|apply Ws].
    intros [= <-]. rewrite Kmac, Kby, Hby. destruct (Ws pk s Hrow) as (? & ? & _).
    repeat split; [done..|]. intros u [= <-]. by eexists.
  - intros e [He|He]%elem_of_app.
    + destruct (Wl e He) as [? Hk]. split; [done|].
      intros k Hek. rewrite lookup_insert. case_decide; [by eexists|by apply Hk].
    + destruct (review_outcome _) as [[st tag]|]; [|by apply elem_of_nil in He].
      apply list_elem_of_singleton in He as ->. simpl. split.
      * intros u [= <-]. by eexists.
      * intros k [= <-]. rewrite lookup_insert. case_decide; [by eexists|done].
  - intros n [Hin|Hin]%elem_of_app.
    + destruct (Wn n Hin) as [? Hk]. split; [done|].
      intros k Hnk. rewrite lookup_insert. case_decide; [by eexists|by apply Hk].
    + destruct (review_outcome _) as [[st tag]|]; [|by apply elem_of_nil in Hin].
      destruct (Submission.submitted_by s) as [submitter|] eqn:Hsub;
        [|by apply elem_of_nil in Hin].
      apply list_elem_of_singleton in Hin as ->. simpl. split.
      * destruct (Ws pk s Hrow) as (_ & Hsb & _). by apply Hsb.
      * intros k [= <-]. rewrite lookup_insert. case_decide; [by eexists|done].
Qed.

Lemma set_null_Some pk fk u : set_null pk fk = Some u → fk = Some u ∧ u ≠ pk.
Proof. unfold set_null. case_bool_decide; [done|]. intros ->. split; congruence. Qed.

Lemma user_delete_foreign_keys pk request w :
  foreign_keys_resolve w → foreign_keys_resolve (user_delete pk request w).2.
Proof.
  intros Hw. destruct (user_delete_effect pk request w) as [H|H];
    [by eapply foreign_keys_resolve_same_tables|].
  destruct H as (user & admin_pk & admin & created_at & Hrow & Huser & _ & Hne & _ &
    Hu & Hm & _ & _ & Hs & Hl & Hn).
  apply request_user_Some in Huser as [_ Huser].
  destruct Hw as (Wu & Ws & Wl & Wn). unfold foreign_keys_resolve.
  rewrite Hu, Hm, Hs, Hl, Hn. split; [|split; [|split]].
  - intros k u m [_ Hk]%lookup_delete_Some. by apply (Wu k).
  - intros k s0. rewrite lookup_fmap.
    destruct (submissions w !! k) as [s|] eqn:Hk; [|done]. intros [= <-]. simpl.
    destruct (Ws k s Hk) as (? & Hby & Hrev). split; [done|].
    split; intros u [? ?]%set_null_Some; rewrite lookup_delete_ne by done; eauto.
  - intros e [He|He]%elem_of_app.
    + apply list_elem_of_fmap in He as (e0 & -> & He). simpl.
      destruct (Wl e0 He) as [Hus Hk]. split.
      * intros u [? ?]%set_null_Some. rewrite lookup_delete_ne by done. eauto.
      * intros k Hek. rewrite lookup_fmap. apply fmap_is_Some. by apply Hk.
    + apply list_elem_of_singleton in He as ->. simpl. split; [|done].
      intros u [= <-]. rewrite lookup_delete_ne by done. by eexists.
  - intros n Hin. apply list_elem_of_filter in Hin as [Hnu Hin].
    destruct (Wn n Hin) as [? Hk]. split.
    + by rewrite lookup_delete_ne.
    + intros k Hnk. rewrite lookup_fmap. apply fmap_is_Some. by apply Hk.
Qed.

Lemma mac_of_submission_kept w pk fk k :
  fk = Some k → is_Some (submissions w !! k) →
  mac_of_submission w fk ≠ Some pk →
  is_Some (filter (λ kv : nat * Submission.t, Submission.mac kv.2 ≠ pk)
                  (submissions w) !! k).
Proof.
  intros -> [s Hs] Hne. exists s. apply map_lookup_filter_Some. split; [done|].
  simpl. unfold mac_of_submission in Hne. simpl in Hne. rewrite Hs in Hne.
  simpl in Hne. congruence.
Qed.

Lemma mac_delete_foreign_keys pk request w :
  foreign_keys_resolve w → foreign_keys_resolve (mac_delete pk request w).2.
Proof.
  intros Hw. destruct (mac_delete_effect pk request w) as [H|H];
    [by eapply foreign_keys_resolve_same_tables|].
  destruct H as (mac & admin_pk & admin & created_at & Hrow & Huser & _ & _ &
    Hm & Hu & _ & _ & Hs & Hl & Hn).
  apply request_user_Some in Huser as [_ Huser].
  destruct Hw as (Wu & Ws & Wl & Wn). unfold foreign_keys_resolve.
  rewrite Hu, Hm, Hs, Hl, Hn. split; [|split; [|split]].
  - intros k u m. rewrite lookup_fmap.
    destruct (users w !! k) as [u0|] eqn:Hk; [|done]. intros [= <-]. simpl.
    intros [? ?]%set_null_Some. rewrite lookup_delete_ne by done. eauto.
  - intros k s [Hk Hmac]%map_lookup_filter_Some. simpl in Hmac.
    destruct (Ws k s Hk) as (? & Hby & Hrev).
    split; [by rewrite lookup_delete_ne|].
    split; intros u Hsu; rewrite lookup_fmap; apply fmap_is_Some; eauto.
  - intros e [He|He]%elem_of_app.
    + apply list_elem_of_filter in He as [Hne He].
      destruct (Wl e He) as [Hus Hk]. split.
      * intros u Heu. rewrite lookup_fmap. apply fmap_is_Some. eauto.
      * intros k Hek. eapply mac_of_submission_kept; eauto.
    + apply list_elem_of_singleton in He as ->. simpl. split; [|done].
      intros u [= <-]. rewrite lookup_fmap, Huser. by eexists.
  - intros n Hin. apply list_elem_of_filter in Hin as [Hne Hin].
    destruct (Wn n Hin) as [? Hk]. split.
    + rewrite lookup_fmap. by apply fmap_is_Some.
    + intros k Hnk. eapply mac_of_submission_kept; eauto.
Qed.

Lemma serve_foreign_keys r w :
  foreign_keys_resolve w → foreign_keys_resolve (serve r w).2.
Proof.
  destruct r as [[request|pk request|pk request|pk request]|pk request|pk request]; simpl.
  - apply submission_create_foreign_keys.
  - apply submission_edit_foreign_keys.
  - apply submission_delete_foreign_keys.
  - apply submission_review_foreign_keys.
  - apply user_delete_foreign_keys.
  - apply mac_delete_foreign_keys.
Qed.

Lemma serve_all_invariant (P : World → Prop) :
  (∀ r w, P w → P (serve r w).2) →
  ∀ rs w, P w → P (serve_all rs w).
Proof.
  intros Hstep rs. induction rs as [|r rs IH]; intros w Hw; simpl; [done|].
  by apply IH, Hstep.
Qed.

Lemma run_op_answers op w :
  foreign_keys_resolve w → (run_op op w).1 ≠ Http500.
Proof.
  intros (Wu & Ws & _).
  destruct op as [request|pk request|pk request|pk request]; simpl.
  - unfold submission_create, login_required, mac_officer_required, role_required.
    run_view.
    destruct (request_user request w) as [[user_pk user]|] eqn:Huser; [|done].
    rewrite Huser. case_bool_decide; [|done].
    unfold submission_create_body. run_view. rewrite Huser.
    destruct (User.mac user) as [mac_pk|] eqn:Hmac; [|done].
    apply request_user_Some in Huser as [_ Huser].
    destruct (Wu _ _ _ Huser Hmac) as [user_mac ->].
    case_bool_decide; [|done].
    destruct (truthy (POST_data request !! "title")),
      (truthy (POST_data request !! "description")),
      (truthy (FILES request !! "file")); simpl; try done.
    unfold Submission_objects_create, log_activity, timezone_now. run_view.
    edestruct for_each_create_notification as (ns & -> & _). done.
  - unfold submission_edit, login_required. run_view.
    destruct (request_user request w) as [[user_pk user]|] eqn:Huser; [|done].
    rewrite ?Huser. unfold submission_edit_body. run_view. rewrite Huser.
    destruct (submissions w !! pk) as [s|]; [|done].
    destruct (can_be_edited_by s user_pk user); simpl; [|done].
    case_bool_decide; [|done].
    destruct (truthy (POST_data request !! "title")),
      (truthy (POST_data request !! "description")); done.
  - unfold submission_delete, login_required. run_view.
    destruct (request_user request w) as [[user_pk user]|] eqn:Huser; [|done].
    rewrite ?Huser. unfold submission_delete_body. run_view. rewrite Huser.
    destruct (submissions w !! pk) as [s|] eqn:Hrow; [|done].
    fold (can_delete s user_pk user).
    destruct (can_delete s user_pk user); simpl; [|done].
    case_bool_decide; [|done].
    destruct (Ws _ _ Hrow) as [[submission_mac ->] _]. done.
  - destruct (request_user request w) as [[user_pk user]|] eqn:Huser;
      [|unfold submission_review; by rewrite login_required_anonymous].
    rewrite (submission_review_gate _ _ _ _ _ Huser).
    case_bool_decide; [|done].
    unfold submission_review_body. run_view. rewrite Huser.
    destruct (submissions w !! pk) as [s|]; [|done].
    case_bool_decide; [|done].
    by destruct (review_decision pk user_pk request s w).
Qed.

Lemma serve_answers r w :
  foreign_keys_resolve w → (serve r w).1 ≠ Http500.
Proof.
  intros Hw. destruct r as [op|pk request|pk request]; simpl.
  - by apply run_op_answers.
  - unfold user_delete, login_required, admin_required, role_required. run_view.
    destruct (request_user request w) as [[admin_pk admin]|] eqn:Huser; [|done].
    rewrite Huser. case_bool_decide; [|done].
    unfold user_delete_body. run_view. rewrite Huser.
    destruct (users w !! pk); [|done].
    repeat case_bool_decide; done.
  - unfold mac_delete, login_required, admin_required, role_required. run_view.
    destruct (request_user request w) as [[admin_pk admin]|] eqn:Huser; [|done].
    rewrite Huser. case_bool_decide; [|done].
    unfold mac_delete_body. run_view. rewrite Huser.
    destruct (macs w !! pk); [|done].
    case_bool_decide; done.
Qed.

Lemma serve_has_administrator r w :
  has_administrator w → has_administrator (serve r w).2.
Proof.
  intros (a & u & Ha & Hrole).
  destruct r as [op|pk request|pk request]; simpl.
  - destruct (run_op_users_macs op w) as [Hu _]. exists a, u. by rewrite Hu.
  - destruct (user_delete_effect pk request w) as [H|H].
    + destruct H as (Hu & _). exists a, u. by rewrite Hu.
    + destruct H as (user & admin_pk & admin & ? & _ & Huser & Hadmin & Hne & _ & Hu & _).
      apply request_user_Some in Huser as [_ Huser].
      exists admin_pk, admin. rewrite Hu. by rewrite lookup_delete_ne.
  - destruct (mac_delete_effect pk request w) as [H|H].
    + destruct H as (Hu & _). exists a, u. by rewrite Hu.
    + destruct H as (? & ? & ? & ? & _ & _ & _ & _ & _ & Hu & _).
      exists a, (User_forget_mac pk u). rewrite Hu, lookup_fmap, Ha. done.
Qed.

(** X15. Referential integrity: if every foreign key of every row names a
    row that exists, this is still so after any sequence of requests to
    the six views that write to the tables (create, edit, delete and
    review of submissions, [user_delete], [mac_delete]).  The [on_delete]
    rules of the models are what makes the two deleting views keep it. *)
Theorem foreign_keys_always_resolve rs w :
  foreign_keys_resolve w → foreign_keys_resolve (serve_all rs w).
Proof. apply serve_all_invariant. intros r w'. apply serve_foreign_keys. Qed.

(** X16. No view runs into a missing row: started where the foreign keys
    resolve, no request of any sequence is answered by the failure that
    stands for following a dangling key ([user.mac] in [submission_create],
    [submission.mac] in [submission_delete]) or for the anonymous user
    inside a view. *)
Theorem no_request_meets_a_dangling_key rs r w :
  foreign_keys_resolve w → (serve r (serve_all rs w)).1 ≠ Http500.
Proof.
  intros Hw. apply serve_answers.
  revert w Hw. apply serve_all_invariant. intros r' w'. apply serve_foreign_keys.
Qed.

(** X17. The administrators never run out: [user_delete] refuses the own
    account of the sender, and the other views leave the roles alone, so
    an installation that has an ADMIN account has one after any sequence
    of requests to the six views. *)
Theorem an_administrator_always_remains rs w :
  has_administrator w → has_administrator (serve_all rs w).
Proof. apply serve_all_invariant. intros r w'. apply serve_has_administrator. Qed.

(** X18. Who may delete an account: a POST to [user_delete] for an existing
    account removes it exactly when the sender is an ADMIN and the account
    is not the sender's own.  The submissions, and the audit entries, of
    the account stay, with the reference to it set to NULL; the
    notifications addressed to it go.  In every other case no table
    changes. *)
Theorem user_delete_is_permitted_exactly w pk user request actor_pk actor :
  users w !! pk = Some user →
  request_user request w = Some (actor_pk, actor) →
  method request = POST →
  let r := user_delete pk request w in
  if bool_decide (User.role actor = ADMIN ∧ actor_pk ≠ pk)
  then r.1 = redirect "user_list" None ∧
       users r.2 = delete pk (users w) ∧
       submissions r.2 = Submission_forget_user pk <$> submissions w ∧
       length (activity_logs r.2) = S (length (activity_logs w)) ∧
       Forall (λ e, ActivityLog.user e ≠ Some pk) (activity_logs r.2) ∧
       notifications r.2 = filter (λ n, Notification.user n ≠ pk) (notifications w)
  else same_tables w r.2.
Proof.
  intros Hrow Huser Hpost. cbv zeta.
  unfold user_delete, admin_required.
  rewrite (login_required_run _ _ _ _ Huser).
  unfold role_required. run_view. rewrite Huser.
  case_bool_decide as Hallowed.
  - destruct Hallowed as [Hrole Hne].
    rewrite bool_decide_eq_true_2 by (by apply list_elem_of_singleton).
    unfold user_delete_body. run_view. rewrite Hrow, Huser.
    rewrite bool_decide_eq_false_2 by done.
    rewrite bool_decide_eq_true_2 by done.
    unfold User_delete, log_activity, timezone_now. run_view.
    repeat (split; [done|]). split; [|split; [|done]].
    + by rewrite length_fmap, length_app, Nat.add_1_r.
    + apply Forall_forall. intros e He.
      apply list_elem_of_fmap in He as (e0 & -> & _). simpl. unfold set_null.
      case_bool_decide; congruence.
  - case_bool_decide as Hrole; [|done].
    apply list_elem_of_singleton in Hrole.
    unfold user_delete_body. run_view. rewrite Hrow, Huser.
    rewrite bool_decide_eq_true_2; [done|].
    destruct (decide (pk = actor_pk)) as [|Hne]; [done|].
    destruct Hallowed. split; congruence.
Qed.



Lemma mac_delete_post w pk mac request admin_pk admin :
  macs w !! pk = Some mac →
  request_user request w = Some (admin_pk, admin) →
  User.role admin = ADMIN → method request = POST →
  let r := mac_delete pk request w in
  r.1 = redirect "mac_list" None ∧
  macs r.2 = delete pk (macs w) ∧
  users r.2 = User_forget_mac pk <$> users w ∧
  submissions r.2 = filter (λ kv, Submission.mac kv.2 ≠ pk) (submissions w).
Proof.
  intros Hrow Huser Hrole Hpost. cbv zeta.
  unfold mac_delete, admin_required.
  rewrite (login_required_run _ _ _ _ Huser).
  rewrite (role_required_run _ _ _ _ _ _ Huser) by (by apply list_elem_of_singleton).
  unfold mac_delete_body. run_view. rewrite Hrow, Huser.
  rewrite bool_decide_eq_true_2 by done.
  unfold MAC_delete, log_activity, timezone_now. run_view. done.
Qed.

(** X20. What deleting a MAC takes along: [mac_delete] asks no question
    about the users and submissions of the MAC (it only counts them for
    the audit entry).  After an administrator's POST the MAC is gone, a
    submission is left exactly if it belongs to another MAC, whatever the
    status of the others was, and every account is left, none of them
    assigned to the MAC. *)
Theorem mac_delete_takes_its_submissions w pk mac request admin_pk admin :
  macs w !! pk = Some mac →
  request_user request w = Some (admin_pk, admin) →
  User.role admin = ADMIN → method request = POST →
  let w' := (mac_delete pk request w).2 in
  macs w' !! pk = None ∧
  (∀ k s, submissions w' !! k = Some s ↔
          submissions w !! k = Some s ∧ Submission.mac s ≠ pk) ∧
  (∀ k, is_Some (users w' !! k) ↔ is_Some (users w !! k)) ∧
  (∀ k u, users w' !! k = Some u → User.mac u ≠ Some pk).
Proof.
  intros Hrow Huser Hrole Hpost. cbv zeta.
  destruct (mac_delete_post _ _ _ _ _ _ Hrow Huser Hrole Hpost) as (_ & -> & -> & ->).
  split; [by rewrite lookup_delete_eq|]. split; [|split].
  - intros k s. by rewrite map_lookup_filter_Some.
  - intros k. by rewrite lookup_fmap, fmap_is_Some.
  - intros k u. rewrite lookup_fmap.
    destruct (users w !! k) as [u0|]; [|done]. intros [= <-]. simpl.
    unfold set_null. case_bool_decide; congruence.
Qed.

(** X21. The officers of a deleted MAC cannot submit: whatever form an
    officer who was assigned to the MAC posts afterwards, [submission_create]
    stores nothing and sends the officer to the dashboard with the message
    that a MAC is required. *)
Theorem officer_of_a_deleted_mac_cannot_submit
    w pk mac request admin_pk admin request' officer_pk officer :
  macs w !! pk = Some mac →
  request_user request w = Some (admin_pk, admin) →
  User.role admin = ADMIN → method request = POST →
  request_user request' w = Some (officer_pk, officer) →
  User.role officer = MAC_OFFICER →
  User.mac officer = Some pk →
  let w' := (mac_delete pk request w).2 in
  submission_create request' w' =
  (redirect "dashboard" None,
   set_flash (flash w' ++
     [(level_error, "You must be assigned to a MAC to submit content.")]) w').
Proof.
  intros Hrow Huser Hrole Hpost Huser' Hrole' Hmac. cbv zeta.
  destruct (mac_delete_post _ _ _ _ _ _ Hrow Huser Hrole Hpost) as (_ & _ & Hu & _).
  set (w' := (mac_delete pk request w).2) in *.
  apply request_user_Some in Huser' as [Hsession Hofficer].
  assert (request_user request' w' = Some (officer_pk, User_forget_mac pk officer)) as Hw'.
  { unfold request_user. rewrite Hsession. simpl.
    by rewrite Hu, lookup_fmap, Hofficer. }
  unfold submission_create, mac_officer_required.
  rewrite (login_required_run _ _ _ _ Hw').
  rewrite (role_required_run _ _ _ _ _ _ Hw') by (by apply list_elem_of_singleton).
  unfold submission_create_body. run_view. rewrite Hw'. simpl.
  unfold set_null. rewrite Hmac. by rewrite bool_decide_eq_true_2.
Qed.

(** *** The example installation, once more *)

Lemma demo_world_foreign_keys : foreign_keys_resolve demo_world.
Proof.
  split; [|split; [|split]].
  - intros k u m Hk Hm. apply elem_of_list_to_map_2 in Hk.
    repeat (apply elem_of_cons in Hk as [[= -> ->]|Hk]); simpl in Hm;
      try discriminate; try (injection Hm as <-; vm_compute; by eexists).
    by apply elem_of_nil in Hk.
  - intros k s Hk.
    assert (submissions demo_world !! k = None) as Hnone by apply lookup_empty.
    congruence.
  - intros e He. by apply elem_of_nil in He.
  - intros n Hn. by apply elem_of_nil in Hn.
Qed.

Lemma foreign_keys_always_resolve_witness :
  foreign_keys_resolve (serve_all demo_cleanup demo_world).
Proof.
  apply (foreign_keys_always_resolve demo_cleanup demo_world).
  apply demo_world_foreign_keys.
Defined.

Lemma no_request_meets_a_dangling_key_witness :
  (serve (to_submissions (op_delete 1 admin_delete_request))
         (serve_all [to_submissions (op_create flood_update)] demo_world)).1 ≠ Http500.
Proof.
  apply (no_request_meets_a_dangling_key [to_submissions (op_create flood_update)]
           (to_submissions (op_delete 1 admin_delete_request)) demo_world).
  apply demo_world_foreign_keys.
Defined.

Lemma an_administrator_always_remains_witness :
  has_administrator (serve_all demo_cleanup demo_world).
Proof.
  apply (an_administrator_always_remains demo_cleanup demo_world).
  exists 4, (User.mk "ada" ADMIN None true). vm_compute. by split.
Defined.

Lemma user_delete_is_permitted_exactly_witness :
  same_tables demo_pending (user_delete 1 officer_post demo_pending).2.
Proof.
  apply (user_delete_is_permitted_exactly demo_pending 1
           (User.mk "olu" MAC_OFFICER (Some 1) true) officer_post 1
           (User.mk "olu" MAC_OFFICER (Some 1) true));
    vm_compute; reflexivity.
Defined.


Lemma mac_delete_takes_its_submissions_witness :
  let w' := (mac_delete 1 admin_delete_request demo_pending).2 in
  macs w' !! 1 = None ∧
  (∀ k s, submissions w' !! k = Some s ↔
          submissions demo_pending !! k = Some s ∧ Submission.mac s ≠ 1) ∧
  (∀ k, is_Some (users w' !! k) ↔ is_Some (users demo_pending !! k)) ∧
  (∀ k u, users w' !! k = Some u → User.mac u ≠ Some 1).
Proof.
  apply (mac_delete_takes_its_submissions demo_pending 1
           (MAC.mk "Ministry of Health" "MOH" true) admin_delete_request 4
           (User.mk "ada" ADMIN None true));
    vm_compute; reflexivity.
Defined.

Lemma officer_of_a_deleted_mac_cannot_submit_witness :
  let w' := (mac_delete 1 admin_delete_request demo_pending).2 in
  submission_create flood_update w' =
  (redirect "dashboard" None,
   set_flash (flash w' ++
     [(level_error, "You must be assigned to a MAC to submit content.")]) w').
Proof.
  apply (officer_of_a_deleted_mac_cannot_submit demo_pending 1
           (MAC.mk "Ministry of Health" "MOH" true) admin_delete_request 4
           (User.mk "ada" ADMIN None true) flood_update 1
           (User.mk "olu" MAC_OFFICER (Some 1) true));
    vm_compute; reflexivity.
Defined.

(** ** The views that only read *)

Arguments order_by_desc : simpl never.
Arguments Submission_objects_all : simpl never.
Arguments active_macs : simpl never.
Arguments unread_count_of : simpl never.
Arguments ActivityLog_objects_all : simpl never.

Lemma order_by_desc_Permutation {A} (column : A → nat) rows :
  order_by_desc column rows ≡ₚ rows.
Proof. apply merge_sort_Permutation. Qed.

Lemma elem_of_order_by_desc {A} (column : A → nat) rows x :
  x ∈ order_by_desc column rows ↔ x ∈ rows.
Proof. by rewrite order_by_desc_Permutation. Qed.

Lemma count_status_order_by_desc st column rows :
  count_status st (order_by_desc column rows) = count_status st rows.
Proof. unfold count_status. by rewrite order_by_desc_Permutation. Qed.

Lemma length_order_by_desc {A} (column : A → nat) rows :
  length (order_by_desc column rows) = length rows.
Proof. by rewrite order_by_desc_Permutation. Qed.

Lemma elem_of_Submission_objects_all w k s :
  (k, s) ∈ Submission_objects_all w ↔ submissions w !! k = Some s.
Proof. apply elem_of_map_to_list. Qed.

Lemma counts_add_up rows :
  length rows =
  count_status PENDING rows + count_status UNDER_REVIEW rows +
  count_status APPROVED rows + count_status DENIED rows + count_status RETURNED rows.
Proof.
  unfold count_status. induction rows as [|[k s] rows IH]; [done|].
  rewrite !filter_cons. simpl. destruct (Submission.status s);
    repeat case_decide; try done; simpl; lia.
Qed.

Lemma count_status_all st rows :
  Forall (λ kv : nat * Submission.t, Submission.status kv.2 = st) rows →
  count_status st rows = length rows.
Proof.
  unfold count_status. induction 1 as [|kv rows Hkv _ IH]; [done|].
  rewrite filter_cons_True by done. simpl. by rewrite IH.
Qed.

Lemma status_name_inj st st' : status_name st = status_name st' → st = st'.
Proof. by destruct st, st'. Qed.

Lemma Submission_objects_of_mac_of_Some user w rows k s :
  Submission_objects_of_mac_of user w = Some rows →
  (k, s) ∈ rows ↔
  submissions w !! k = Some s ∧ User.mac user = Some (Submission.mac s).
Proof.
  unfold Submission_objects_of_mac_of.
  destruct (User.mac user) as [m|].
  - destruct (macs w !! m); [|done]. intros [= <-].
    rewrite list_elem_of_filter, elem_of_Submission_objects_all. simpl.
    split; intros [? ?]; split; congruence.
  - intros [= <-]. split; [by intros ?%elem_of_nil|]. by intros [_ ?].
Qed.

Section Queries.

Variable icontains : string → string → bool.
Variable to_pk : string → option nat.
Variable date : nat → nat.

(** The rows of [submission_list], before they are put in order. *)
Lemma submission_list_rows request GET_data w user_pk user template context k s :
  request_user request w = Some (user_pk, user) →
  submission_list icontains to_pk request GET_data w = rendered template context →
  (k, s) ∈ SubmissionList.submissions context →
  submissions w !! k = Some s ∧
  (User.role user = MAC_OFFICER → User.mac user = Some (Submission.mac s)) ∧
  (truthy (GET_data !! "status") = true →
   GET_data !! "status" = Some (status_name (Submission.status s))).
Proof.
  intros Huser. unfold submission_list. rewrite Huser. unfold is_mac_officer.
  case_bool_decide as Hrole; simpl.
  - destruct (Submission_objects_of_mac_of user w) as [rows|] eqn:Hrows; [|done].
    simpl. rewrite andb_false_r. simpl. intros [= <- <-]. simpl.
    rewrite elem_of_order_by_desc. intros Hin.
    assert ((k, s) ∈ rows ∧
            (truthy (GET_data !! "status") = true →
             GET_data !! "status" = Some (status_name (Submission.status s)))) as [Hin' ?].
    { destruct (truthy (GET_data !! "search")), (truthy (GET_data !! "status"));
        repeat (apply list_elem_of_filter in Hin as [? Hin]); simpl in *; by split. }
    apply (Submission_objects_of_mac_of_Some _ _ _ _ _ Hrows) in Hin' as [? ?]. done.
  - rewrite andb_true_r.
    destruct (truthy (GET_data !! "mac")); simpl.
    + destruct (to_pk _) as [mac_id|]; [|done]. simpl. intros [= <- <-]. simpl.
      rewrite elem_of_order_by_desc. intros Hin.
      destruct (truthy (GET_data !! "search")), (truthy (GET_data !! "status"));
        repeat (apply list_elem_of_filter in Hin as [? Hin]); simpl in *;
        apply elem_of_Submission_objects_all in Hin; by repeat split.
    + intros [= <- <-]. simpl.
      rewrite elem_of_order_by_desc. intros Hin.
      destruct (truthy (GET_data !! "search")), (truthy (GET_data !! "status"));
        repeat (apply list_elem_of_filter in Hin as [? Hin]); simpl in *;
        apply elem_of_Submission_objects_all in Hin; by repeat split.
Qed.

Lemma dashboard_rows request w user_pk user template context k s :
  request_user request w = Some (user_pk, user) →
  (dashboard date request w).1 = rendered template context →
  (k, s) ∈ Dashboard.recent_submissions context →
  submissions w !! k = Some s ∧
  (User.role user = MAC_OFFICER → User.mac user = Some (Submission.mac s)).
Proof.
  intros Huser. unfold dashboard, get_dashboard_stats. run_view. rewrite Huser.
  unfold is_mac_officer, is_micat_reviewer, is_admin.
  case_bool_decide as Hrole; run_view.
  - destruct (User.mac user) as [m|] eqn:Hmac.
    + destruct (Submission_objects_of_mac_of user w) as [rows|] eqn:Hrows; [|done].
      simpl. intros [= <- <-]. simpl.
      intros Hin%subseteq_take%elem_of_order_by_desc.
      apply (Submission_objects_of_mac_of_Some _ _ _ _ _ Hrows) in Hin as [? ?].
      split; [done|congruence].
    + destruct (Submission_objects_of_mac_of user w); simpl; [|done].
      intros [= <- <-]. by intros ?%elem_of_nil.
  - case_bool_decide; run_view.
    + intros [= <- <-]. simpl.
      intros Hin%subseteq_take%elem_of_order_by_desc.
      apply list_elem_of_filter in Hin as [_ Hin].
      by apply elem_of_Submission_objects_all in Hin.
    + case_bool_decide; run_view.
      * destruct (filter _ (Submission_objects_all w)); run_view;
          intros [= <- <-]; simpl;
          intros Hin%subseteq_take%elem_of_order_by_desc;
          by apply elem_of_Submission_objects_all in Hin.
      * intros [= <- <-]; simpl.
        intros Hin%subseteq_take%elem_of_order_by_desc.
        by apply elem_of_Submission_objects_all in Hin.
Qed.

Lemma submission_list_counts request GET_data w template context :
  submission_list icontains to_pk request GET_data w = rendered template context →
  SubmissionList.status_counts context =
  let rows := SubmissionList.submissions context in
  StatusCounts.mk (length rows) (count_status PENDING rows)
    (count_status UNDER_REVIEW rows) (count_status APPROVED rows)
    (count_status DENIED rows) (count_status RETURNED rows).
Proof.
  unfold submission_list.
  destruct (request_user request w) as [[user_pk user]|]; [|done].
  destruct (_ ≫= _) as [rows|]; [|done]. by intros [= <- <-].
Qed.

(** X22. An officer is shown the own MAC only: every submission on the
    list of [submission_list], whatever the GET parameters ask for (a
    [mac] parameter is ignored for officers), and every recent submission
    on the [dashboard], is a row of the MAC the officer is assigned to. *)
Theorem officer_is_shown_only_the_own_mac request GET_data w user_pk user k s :
  request_user request w = Some (user_pk, user) →
  User.role user = MAC_OFFICER →
  (∀ template context,
     submission_list icontains to_pk request GET_data w = rendered template context →
     (k, s) ∈ SubmissionList.submissions context →
     submissions w !! k = Some s ∧ User.mac user = Some (Submission.mac s)) ∧
  (∀ template context,
     (dashboard date request w).1 = rendered template context →
     (k, s) ∈ Dashboard.recent_submissions context →
     submissions w !! k = Some s ∧ User.mac user = Some (Submission.mac s)).
Proof.
  intros Huser Hrole. split; intros template context Hpage Hin.
  - destruct (submission_list_rows _ _ _ _ _ _ _ _ _ Huser Hpage Hin) as (? & Hmac & _).
    auto.
  - destruct (dashboard_rows _ _ _ _ _ _ _ _ Huser Hpage Hin) as (? & Hmac). auto.
Qed.

(** X23. The status tabs of [submission_list] count the list that is
    shown, filters applied: the counts of the five statuses add up to the
    count of [all]; and with a status filter on, the tab of that status
    counts the whole list and every other tab shows 0. *)
Theorem status_tabs_count_the_shown_list request GET_data w template context :
  submission_list icontains to_pk request GET_data w = rendered template context →
  let c := SubmissionList.status_counts context in
  StatusCounts.all c = length (SubmissionList.submissions context) ∧
  StatusCounts.all c =
    StatusCounts.pending c + StatusCounts.under_review c + StatusCounts.approved c +
    StatusCounts.denied c + StatusCounts.returned c ∧
  ∀ st, GET_data !! "status" = Some (status_name st) →
    StatusCounts.on_tab st c = StatusCounts.all c ∧
    ∀ st', st' ≠ st → StatusCounts.on_tab st' c = 0.
Proof.
  intros Hpage. cbv zeta. rewrite (submission_list_counts _ _ _ _ _ Hpage). simpl.
  set (rows := SubmissionList.submissions context).
  pose proof (counts_add_up rows) as Hsum.
  split; [done|]. split; [done|]. intros st Hst.
  assert (count_status st rows = length rows) as Hall.
  { apply count_status_all, Forall_forall. intros [k s] Hin. simpl.
    destruct (request_user request w) as [[user_pk user]|] eqn:Huser;
      [|unfold submission_list in Hpage; by rewrite Huser in Hpage].
    destruct (submission_list_rows _ _ _ _ _ _ _ _ _ Huser Hpage Hin) as (_ & _ & Hf).
    apply status_name_inj. rewrite Hst in Hf.
    assert (truthy (Some (status_name st)) = true) as Ht by by destruct st.
    specialize (Hf Ht). congruence. }
  split.
  - by destruct st.
  - intros st' Hne. destruct st, st'; simpl in *; try done; lia.
Qed.

Ltac dict_lookup :=
  repeat first [rewrite lookup_insert_eq | rewrite lookup_insert_ne by done].

(** X24. The dashboard and the list agree: the statistics that
    [get_dashboard_stats] gives a user on the [dashboard] are the counts
    on the tabs of the unfiltered [submission_list] of the same user:
    all six for an officer or a reviewer, the total and the pending ones
    for an administrator. *)
Theorem dashboard_and_list_agree request w user_pk user t1 d t2 l :
  request_user request w = Some (user_pk, user) →
  (dashboard date request w).1 = rendered t1 d →
  submission_list icontains to_pk request ∅ w = rendered t2 l →
  let c := SubmissionList.status_counts l in
  let stats := Dashboard.stats d in
  stats !! "pending" = Some (StatusCounts.pending c) ∧
  if bool_decide (User.role user = ADMIN)
  then stats !! "total_submissions" = Some (StatusCounts.all c)
  else stats !! "total" = Some (StatusCounts.all c) ∧
       stats !! "under_review" = Some (StatusCounts.under_review c) ∧
       stats !! "approved" = Some (StatusCounts.approved c) ∧
       stats !! "denied" = Some (StatusCounts.denied c) ∧
       stats !! "returned" = Some (StatusCounts.returned c).
Proof.
  intros Huser Hd Hl. cbv zeta.
  rewrite (submission_list_counts _ _ _ _ _ Hl). simpl.
  revert Hd Hl. unfold submission_list, dashboard, get_dashboard_stats. run_view.
  rewrite Huser, !lookup_empty. simpl.
  unfold is_mac_officer, is_micat_reviewer, is_admin.
  destruct (User.role user) eqn:Hrole;
    repeat (first [rewrite bool_decide_eq_true_2 by done
                  |rewrite bool_decide_eq_false_2 by done]); run_view.
  - destruct (Submission_objects_of_mac_of user w) as [rows|] eqn:Hrows; [|done].
    simpl. destruct (User.mac user); simpl; intros [= <- <-] [= <- <-]; simpl;
      rewrite !count_status_order_by_desc, length_order_by_desc; dict_lookup; done.
  - intros [= <- <-] [= <- <-]. simpl.
    rewrite !count_status_order_by_desc, length_order_by_desc. dict_lookup. done.
  - destruct (filter _ (Submission_objects_all w)); run_view;
      intros [= <- <-] [= <- <-]; simpl;
      rewrite !count_status_order_by_desc, length_order_by_desc; dict_lookup; done.
Qed.

Lemma content_library_lists request GET_data w template context k s :
  content_library icontains to_pk request GET_data w = rendered template context →
  (k, s) ∈ ContentLibrary.content context ↔
  submissions w !! k = Some s ∧
  Submission.status s = APPROVED ∧ Submission.is_published s = true ∧
  (truthy (GET_data !! "type") = true →
   Submission.content_type s = GET_data !! "type") ∧
  (truthy (GET_data !! "mac") = true →
   to_pk (default "" (GET_data !! "mac")) = Some (Submission.mac s)) ∧
  (truthy (GET_data !! "search") = true →
   matches_search icontains (default "" (GET_data !! "search")) s = true).
Proof.
  unfold content_library.
  destruct (request_user request w) as [[user_pk user]|]; [|done].
  destruct (truthy (GET_data !! "mac")); simpl.
  - destruct (to_pk _) as [mac_id|]; [|done]. simpl. intros [= <- <-]. simpl.
    destruct (truthy (GET_data !! "search")), (truthy (GET_data !! "type"));
      rewrite ?list_elem_of_filter, elem_of_order_by_desc, list_elem_of_filter,
        elem_of_Submission_objects_all; simpl; split;
      intros; destruct_and?; repeat split; try done; try congruence; auto.
    all: assert (Some mac_id = Some (Submission.mac s)) by auto; congruence.
  - intros [= <- <-]. simpl.
    destruct (truthy (GET_data !! "search")), (truthy (GET_data !! "type"));
      rewrite ?list_elem_of_filter, elem_of_order_by_desc, list_elem_of_filter,
        elem_of_Submission_objects_all; simpl; split;
      intros; destruct_and?; repeat split; try done; auto.
Qed.

(** X25. What the library lists: [content_library] shows a submission to a
    logged-in user exactly if its status is APPROVED, it is published and
    it passes the filters of the request.  Neither who the reader is, nor
    the reader's MAC, nor [is_confidential] plays a part. *)
Theorem library_lists_exactly_the_published request GET_data w template context k s :
  content_library icontains to_pk request GET_data w = rendered template context →
  (k, s) ∈ ContentLibrary.content context ↔
  submissions w !! k = Some s ∧
  Submission.status s = APPROVED ∧ Submission.is_published s = true ∧
  (truthy (GET_data !! "type") = true →
   Submission.content_type s = GET_data !! "type") ∧
  (truthy (GET_data !! "mac") = true →
   to_pk (default "" (GET_data !! "mac")) = Some (Submission.mac s)) ∧
  (truthy (GET_data !! "search") = true →
   matches_search icontains (default "" (GET_data !! "search")) s = true).
Proof. apply content_library_lists. Qed.



Lemma get_dashboard_stats_tables user_pk user w :
  same_tables w (get_dashboard_stats date user_pk user w).2.
Proof.
  unfold get_dashboard_stats, timezone_now. run_view.
  repeat (case_match; run_view); simplify_eq/=; by repeat split.
Qed.

Lemma dashboard_activity request w template context :
  (dashboard date request w).1 = rendered template context →
  Dashboard.recent_activity context = take 10 (ActivityLog_objects_all w).
Proof.
  unfold dashboard. run_view.
  destruct (request_user request w) as [[user_pk user]|]; [|done].
  pose proof (get_dashboard_stats_tables user_pk user w) as (_ & _ & _ & _ & Hl & _).
  destruct (get_dashboard_stats date user_pk user w) as [stats w1]. simpl in *.
  unfold ActivityLog_objects_all. rewrite Hl.
  destruct stats as [stats|]; [|done].
  repeat (case_match; run_view); try done; by intros [= <- <-].
Qed.

(** X27. The audit trail on the two pages: [activity_log] shows a user who
    is no administrator at most fifty entries, each an entry of that same
    user; the [dashboard] shows every user, whatever the role, the ten
    entries that head the page an administrator gets from
    [activity_log]. *)
Theorem audit_entries_on_the_pages request w user_pk user :
  request_user request w = Some (user_pk, user) →
  (User.role user ≠ ADMIN →
   ∀ template context, activity_log request w = rendered template context →
     length (ActivityLogPage.logs context) ≤ 50 ∧
     ∀ e, e ∈ ActivityLogPage.logs context →
       ActivityLog.user e = Some user_pk ∧ e ∈ activity_logs w) ∧
  (∀ request' admin_pk admin t1 d t2 a,
     request_user request' w = Some (admin_pk, admin) →
     User.role admin = ADMIN →
     (dashboard date request w).1 = rendered t1 d →
     activity_log request' w = rendered t2 a →
     Dashboard.recent_activity d = take 10 (ActivityLogPage.logs a)).
Proof.
  intros Huser. split.
  - intros Hrole template context. unfold activity_log, is_admin.
    rewrite Huser, bool_decide_eq_false_2 by done. intros [= <- <-]. simpl. split.
    + rewrite length_take. lia.
    + intros e Hin%subseteq_take. apply list_elem_of_filter in Hin as [? Hin].
      split; [done|]. unfold ActivityLog_objects_all in Hin.
      by apply elem_of_order_by_desc in Hin.
  - intros request' admin_pk admin t1 d t2 a Hadmin Hrole Hd.
    unfold activity_log, is_admin. rewrite Hadmin, bool_decide_eq_true_2 by done.
    intros [= <- <-]. simpl. rewrite take_take, Nat.min_l by lia.
    by apply dashboard_activity in Hd.
Qed.

End Queries.

Lemma officer_is_shown_only_the_own_mac_witness :
  (∀ template context,
     submission_list ascii_icontains decimal (get_request 1) other_mac_query
       demo_published = rendered template context →
     (1, stored demo_published 1) ∈ SubmissionList.submissions context →
     submissions demo_published !! 1 = Some (stored demo_published 1) ∧
     Some 1 = Some (Submission.mac (stored demo_published 1))) ∧
  (∀ template context,
     (dashboard day_of (get_request 1) demo_published).1 = rendered template context →
     (1, stored demo_published 1) ∈ Dashboard.recent_submissions context →
     submissions demo_published !! 1 = Some (stored demo_published 1) ∧
     Some 1 = Some (Submission.mac (stored demo_published 1))).
Proof.
  apply (officer_is_shown_only_the_own_mac ascii_icontains decimal day_of
           (get_request 1) other_mac_query demo_published 1
           (User.mk "olu" MAC_OFFICER (Some 1) true) 1 (stored demo_published 1));
    vm_compute; reflexivity.
Defined.

Lemma status_tabs_count_the_shown_list_witness :
  ∃ template context,
    submission_list ascii_icontains decimal (get_request 2) approved_query
      demo_published = rendered template context ∧
    let c := SubmissionList.status_counts context in
    StatusCounts.all c = length (SubmissionList.submissions context) ∧
    StatusCounts.all c =
      StatusCounts.pending c + StatusCounts.under_review c + StatusCounts.approved c +
      StatusCounts.denied c + StatusCounts.returned c ∧
    ∀ st, approved_query !! "status" = Some (status_name st) →
      StatusCounts.on_tab st c = StatusCounts.all c ∧
      ∀ st', st' ≠ st → StatusCounts.on_tab st' c = 0.
Proof.
  eexists _, _. split; [vm_compute; reflexivity|].
  eapply (status_tabs_count_the_shown_list ascii_icontains decimal
            (get_request 2) approved_query demo_published).
  vm_compute; reflexivity.
Defined.

Lemma dashboard_and_list_agree_witness :
  ∃ t1 d t2 l,
    (dashboard day_of (get_request 2) demo_published).1 = rendered t1 d ∧
    submission_list ascii_icontains decimal (get_request 2) ∅ demo_published =
      rendered t2 l ∧
    let c := SubmissionList.status_counts l in
    let stats := Dashboard.stats d in
    stats !! "pending" = Some (StatusCounts.pending c) ∧
    stats !! "total" = Some (StatusCounts.all c) ∧
    stats !! "under_review" = Some (StatusCounts.under_review c) ∧
    stats !! "approved" = Some (StatusCounts.approved c) ∧
    stats !! "denied" = Some (StatusCounts.denied c) ∧
    stats !! "returned" = Some (StatusCounts.returned c).
Proof.
  eexists _, _, _, _. split; [vm_compute; reflexivity|].
  split; [vm_compute; reflexivity|].
  eapply (dashboard_and_list_agree ascii_icontains decimal day_of
            (get_request 2) demo_published 2
            (User.mk "rita" MICAT_REVIEWER None true));
    vm_compute; reflexivity.
Defined.

Lemma library_lists_exactly_the_published_witness :
  ∃ template context,
    content_library ascii_icontains decimal (get_request 6) ∅ demo_published =
      rendered template context ∧
    ((1, stored demo_published 1) ∈ ContentLibrary.content context ↔
     submissions demo_published !! 1 = Some (stored demo_published 1) ∧
     Submission.status (stored demo_published 1) = APPROVED ∧
     Submission.is_published (stored demo_published 1) = true ∧
     (truthy ((∅ : gmap string string) !! "type") = true →
      Submission.content_type (stored demo_published 1) = (∅ : gmap string string) !! "type") ∧
     (truthy ((∅ : gmap string string) !! "mac") = true →
      decimal (default "" ((∅ : gmap string string) !! "mac")) =
        Some (Submission.mac (stored demo_published 1))) ∧
     (truthy ((∅ : gmap string string) !! "search") = true →
      matches_search ascii_icontains (default "" ((∅ : gmap string string) !! "search"))
        (stored demo_published 1) = true)).
Proof.
  eexists _, _. split; [vm_compute; reflexivity|].
  eapply (library_lists_exactly_the_published ascii_icontains decimal
            (get_request 6) ∅ demo_published).
  vm_compute; reflexivity.
Defined.


Lemma audit_entries_on_the_pages_witness :
  (MAC_OFFICER ≠ ADMIN →
   ∀ template context,
     activity_log (get_request 1) demo_published = rendered template context →
     length (ActivityLogPage.logs context) ≤ 50 ∧
     ∀ e, e ∈ ActivityLogPage.logs context →
       ActivityLog.user e = Some 1 ∧ e ∈ activity_logs demo_published) ∧
  (∀ request' admin_pk admin t1 d t2 a,
     request_user request' demo_published = Some (admin_pk, admin) →
     User.role admin = ADMIN →
     (dashboard day_of (get_request 1) demo_published).1 = rendered t1 d →
     activity_log request' demo_published = rendered t2 a →
     Dashboard.recent_activity d = take 10 (ActivityLogPage.logs a)).
Proof.
  apply (audit_entries_on_the_pages day_of (get_request 1) demo_published 1
           (User.mk "olu" MAC_OFFICER (Some 1) true)).
  vm_compute; reflexivity.
Defined.

(** ** [submission_detail] *)

Arguments can_view : simpl never.
Arguments tag_list_of : simpl never.

Lemma can_view_resolved s user_pk user w k :
  foreign_keys_resolve w →
  submissions w !! k = Some s → users w !! user_pk = Some user →
  can_view s user w =
  Some (negb (bool_decide (User.role user = MAC_OFFICER ∧
                           User.mac user ≠ Some (Submission.mac s)))).
Proof.
  intros (Wu & Ws & _) Hs Hu. unfold can_view, is_admin, is_micat_reviewer, is_mac_officer.
  destruct (Ws _ _ Hs) as [[m Hm] _].
  destruct (User.role user) eqn:Hrole;
    repeat (first [rewrite bool_decide_eq_true_2 by done
                  |rewrite bool_decide_eq_false_2 by done]); simpl.
  - rewrite Hm. simpl. destruct (User.mac user) as [m'|] eqn:Hmac.
    + destruct (Wu _ _ _ Hu Hmac) as [? ->]. simpl.
      repeat case_bool_decide; simpl; try done; exfalso; intuition congruence.
    + repeat case_bool_decide; simpl; try done; exfalso; intuition congruence.
  - repeat case_bool_decide; simpl; try done; exfalso; intuition congruence.
  - repeat case_bool_decide; simpl; try done; exfalso; intuition congruence.
Qed.

(** [split(',')[0]] of [log_activity] is the head of [split(',')]. *)
Lemma split_comma_head s : head (split_comma s) = Some (before_comma s).
Proof.
  induction s as [|c r IH]; [done|]. simpl. unfold comma.
  destruct (Ascii.eqb c (Ascii.ascii_of_nat 44)); [done|].
  destruct (split_comma r) as [|segment rest]; [done|].
  simpl in *. by injection IH as ->.
Qed.

Section Detail.

Variable strip : string → string.

(** X28. Who is shown a submission: with the foreign keys resolving,
    [submission_detail] turns a logged-in user away exactly if the user is
    a MAC_OFFICER whose MAC is not the MAC of the submission (or who has
    none); the comment table and the tables stay as they are.  Whether
    the officer submitted it, and whether it is confidential or
    published, is not asked. *)
Theorem detail_is_shown_exactly w pk s request user_pk user comments :
  foreign_keys_resolve w →
  submissions w !! pk = Some s →
  request_user request w = Some (user_pk, user) →
  let r := submission_detail strip pk request comments w in
  if bool_decide (User.role user = MAC_OFFICER ∧
                  User.mac user ≠ Some (Submission.mac s))
  then r.1 = (answered (redirect "dashboard" None), comments) ∧ same_tables w r.2
  else (∃ context, r.1.1 = rendered "core/submission_detail.html" context ∧
                   SubmissionDetail.submission context = (pk, s)) ∨
       r.1.1 = answered (redirect "submission_detail" (Some pk)).
Proof.
  intros Hw Hs Huser. cbv zeta. unfold submission_detail. run_view.
  rewrite Huser, Hs.
  destruct (request_user_Some _ _ _ _ Huser) as [_ Hu].
  rewrite (can_view_resolved _ _ _ _ _ Hw Hs Hu).
  case_bool_decide; simpl; [by repeat split|].
  destruct (bool_decide (method request = POST) && _); [|left; by eexists].
  destruct (is_micat_reviewer user); [|left; by eexists].
  destruct (truthy _); [|left; by eexists].
  unfold Comment_objects_create, log_activity, notify_submitter, create_notification,
    timezone_now. run_view.
  destruct (negb _); run_view; [|by right].
  destruct (Submission.submitted_by s); run_view; by right.
Qed.

(** X29. Who adds a comment: [submission_detail] stores a comment exactly
    if a MICAT_REVIEWER posts the form with [add_comment] and a text that
    is not empty.  Then one comment, of that reviewer on that submission,
    and one COMMENT_ADDED audit entry are written, and the submitter, if
    there still is one, is notified unless the comment is internal.  In
    every other case (an administrator or an officer posting the form,
    an empty text) nothing at all is written. *)
Theorem a_comment_is_stored_exactly w pk s request user_pk user comments :
  submissions w !! pk = Some s →
  request_user request w = Some (user_pk, user) →
  let r := submission_detail strip pk request comments w in
  if bool_decide (User.role user = MICAT_REVIEWER ∧ method request = POST ∧
                  is_Some (POST_data request !! "add_comment") ∧
                  truthy (POST_data request !! "comment_text") = true)
  then ∃ created_at created_at' ns,
    r.1.1 = answered (redirect "submission_detail" (Some pk)) ∧
    r.1.2 = comments ++
      [Comment.mk pk user_pk (default "" (POST_data request !! "comment_text"))
         (is_on (POST_data request !! "is_internal")) created_at] ∧
    activity_logs r.2 = activity_logs w ++
      [ActivityLog.mk (Some user_pk) COMMENT_ADDED (Some pk)
         ("Added comment on '" +:+ Submission.title s +:+ "'")
         (client_ip request) created_at'] ∧
    notifications r.2 = notifications w ++ ns ∧
    Notification.user <$> ns =
      (if is_on (POST_data request !! "is_internal") then []
       else option_list (Submission.submitted_by s)) ∧
    Forall (notifies "New Comment"
              ("MICAT added a comment on '" +:+ Submission.title s +:+ "'")
              (Some pk)) ns ∧
    users r.2 = users w ∧ macs r.2 = macs w ∧ submissions r.2 = submissions w
  else r.1.2 = comments ∧ same_tables w r.2.
Proof.
  intros Hs Huser. cbv zeta. unfold submission_detail. run_view.
  rewrite Huser, Hs. unfold is_micat_reviewer.
  case_bool_decide as Hyes.
  - destruct Hyes as (Hrole & Hpost & Hadd & Htext).
    unfold can_view, is_admin, is_micat_reviewer. rewrite Hrole. simpl.
    rewrite !bool_decide_eq_true_2 by done. simpl. rewrite Htext.
    unfold Comment_objects_create, log_activity, notify_submitter, create_notification,
      timezone_now. run_view.
    destruct (is_on (POST_data request !! "is_internal")); run_view.
    + eexists _, _, []. rewrite app_nil_r. by repeat split.
    + destruct (Submission.submitted_by s); run_view.
      * eexists _, _, [_]. repeat split; try done. by repeat constructor.
      * eexists _, _, []. rewrite app_nil_r. by repeat split.
  - destruct (can_view s user w) as [[|]|]; run_view; try by repeat split.
    destruct (bool_decide (method request = POST)) eqn:Hpost; simpl; [|by repeat split].
    destruct (bool_decide (is_Some _)) eqn:Hadd; simpl; [|by repeat split].
    destruct (bool_decide (User.role user = MICAT_REVIEWER)) eqn:Hrole; simpl;
      [|by repeat split].
    destruct (truthy (POST_data request !! "comment_text")) eqn:Htext; simpl;
      [|by repeat split].
    exfalso. apply Hyes. apply bool_decide_eq_true in Hpost, Hadd, Hrole. done.
Qed.

(** X30. Internal comments stay internal: a page that [submission_detail]
    renders for a MAC_OFFICER shows comments of that submission only, and
    none that is internal; and the internal comment of a reviewer
    notifies nobody. *)
Theorem internal_comments_stay_internal w pk request user_pk user comments :
  request_user request w = Some (user_pk, user) →
  let r := submission_detail strip pk request comments w in
  (User.role user = MAC_OFFICER →
   ∀ template context, r.1.1 = rendered template context →
     ∀ c, c ∈ SubmissionDetail.comments context →
       c ∈ comments ∧ Comment.submission c = pk ∧ Comment.is_internal c = false) ∧
  (is_on (POST_data request !! "is_internal") = true →
   notifications r.2 = notifications w).
Proof.
  intros Huser. cbv zeta. unfold submission_detail. run_view. rewrite Huser.
  destruct (submissions w !! pk) as [s|]; [|done].
  destruct (can_view s user w) as [[|]|]; run_view; try done.
  unfold is_micat_reviewer, is_admin. split.
  - intros Hrole. rewrite Hrole. simpl.
    destruct (_ && _); simpl; intros template context [= <- <-] c; simpl;
      rewrite list_elem_of_filter, elem_of_order_by_desc, list_elem_of_filter;
      by intros (? & ? & ?).
  - intros Hinternal.
    destruct (_ && _); [|done]. case_bool_decide; [|done].
    destruct (truthy _); [|done]. rewrite Hinternal.
    unfold Comment_objects_create, log_activity, timezone_now. run_view. done.
Qed.

End Detail.

Lemma detail_is_shown_exactly_witness :
  let r := submission_detail (λ tag, tag) 1 (get_request 6) [] demo_pending in
  r.1 = (answered (redirect "dashboard" None), []) ∧ same_tables demo_pending r.2.
Proof.
  apply (detail_is_shown_exactly (λ tag, tag) demo_pending 1 (stored demo_pending 1)
           (get_request 6) 6 (User.mk "ike" MAC_OFFICER (Some 2) true) []);
    try (vm_compute; reflexivity).
  apply (serve_foreign_keys (to_submissions (op_create flood_update)) demo_world).
  apply demo_world_foreign_keys.
Defined.

Lemma a_comment_is_stored_exactly_witness :
  let r := submission_detail (λ tag, tag) 1 (comment_request false) [] demo_pending in
  ∃ created_at created_at' ns,
    r.1.1 = answered (redirect "submission_detail" (Some 1)) ∧
    r.1.2 = [] ++
      [Comment.mk 1 2 (default "" (POST_data (comment_request false) !! "comment_text"))
         (is_on (POST_data (comment_request false) !! "is_internal")) created_at] ∧
    activity_logs r.2 = activity_logs demo_pending ++
      [ActivityLog.mk (Some 2) COMMENT_ADDED (Some 1)
         ("Added comment on '" +:+ Submission.title (stored demo_pending 1) +:+ "'")
         (client_ip (comment_request false)) created_at'] ∧
    notifications r.2 = notifications demo_pending ++ ns ∧
    Notification.user <$> ns =
      (if is_on (POST_data (comment_request false) !! "is_internal") then []
       else option_list (Submission.submitted_by (stored demo_pending 1))) ∧
    Forall (notifies "New Comment"
              ("MICAT added a comment on '" +:+
               Submission.title (stored demo_pending 1) +:+ "'")
              (Some 1)) ns ∧
    users r.2 = users demo_pending ∧ macs r.2 = macs demo_pending ∧
    submissions r.2 = submissions demo_pending.
Proof.
  apply (a_comment_is_stored_exactly (λ tag, tag) demo_pending 1 (stored demo_pending 1)
           (comment_request false) 2 (User.mk "rita" MICAT_REVIEWER None true) []);
    vm_compute; reflexivity.
Defined.

Lemma internal_comments_stay_internal_witness :
  let r := submission_detail (λ tag, tag) 1 (comment_request true) [] demo_pending in
  (MICAT_REVIEWER = MAC_OFFICER →
   ∀ template context, r.1.1 = rendered template context →
     ∀ c, c ∈ SubmissionDetail.comments context →
       c ∈ [] ∧ Comment.submission c = 1 ∧ Comment.is_internal c = false) ∧
  (is_on (POST_data (comment_request true) !! "is_internal") = true →
   notifications r.2 = notifications demo_pending).
Proof.
  apply (internal_comments_stay_internal (λ tag, tag) demo_pending 1
           (comment_request true) 2 (User.mk "rita" MICAT_REVIEWER None true) []).
  vm_compute; reflexivity.
Defined.
